(** * Chatrack: message lifecycle, delivery and presence

    A shallow embedding of the message controller
    ([src/controllers/messageController.js]), of the Socket.IO server
    ([src/index.js]), of the relay-only server variant
    ([src/unnamed/part_002]) and of the Message schema
    ([src/unnamed/part_000]), followed by the properties of the
    specification that concern them.

    Modelling conventions.
    - A [Date] is its millisecond count.  Every [new Date()] of the source
      is an explicit argument of the embedded function, named after the
      field it stamps, so that two clock reads are never assumed equal.
    - An ObjectId is its 24-digit lowercase hexadecimal rendering; a value
      that arrives from a client is a raw string that Mongoose casts.
    - A JSON field that a client may omit is an [option string]; [None]
      stands for [undefined]/[null].
    - MongoDB is an in-memory store: the message collection is a list in
      insertion order, the user collection a finite map keyed by [_id].
      Only cast and validation errors make a store operation throw;
      documents already in the store are taken to be schema-valid, and
      the bookkeeping paths that Mongoose maintains by itself
      ([createdAt], [updatedAt], [__v]) are left out.
    - Handlers run one at a time. *)

From Stdlib Require Import String Ascii ZArith Lia Bool.
From stdpp Require Import base option list strings gmap sorting.

Local Open Scope string_scope.
Local Open Scope Z_scope.

(* ===================================================================== *)
(** ** Values *)

Definition Date := Z.

(** JavaScript truthiness of a string-or-undefined value: [!x] is
    [negb (truthy x)]. *)
Definition truthy (x : option string) : bool :=
  match x with
  | Some s => negb (String.eqb s "")
  | None => false
  end.

(** [x || d] for a string-or-undefined [x]. *)
Definition orElse (x : option string) (d : string) : string :=
  match x with
  | Some s => if String.eqb s "" then d else s
  | None => d
  end.

(** [x || null]. *)
Definition orNull (x : option string) : option string :=
  match x with
  | Some s => if String.eqb s "" then None else Some s
  | None => None
  end.

(** *** ObjectId (bson) *)

Definition isHexDigit (c : ascii) : bool :=
  let n := nat_of_ascii c in
  (Nat.leb 48 n && Nat.leb n 57) || (Nat.leb 65 n && Nat.leb n 70)
  || (Nat.leb 97 n && Nat.leb n 102).

Definition toLowerHex (c : ascii) : ascii :=
  let n := nat_of_ascii c in
  if Nat.leb 65 n && Nat.leb n 70 then ascii_of_nat (n + 32) else c.

Definition hexDigit (n : nat) : ascii :=
  if Nat.ltb n 10 then ascii_of_nat (48 + n) else ascii_of_nat (87 + n).

Fixpoint allHex (s : string) : bool :=
  match s with
  | EmptyString => true
  | String c r => isHexDigit c && allHex r
  end.

Fixpoint lowerHex (s : string) : string :=
  match s with
  | EmptyString => EmptyString
  | String c r => String (toLowerHex c) (lowerHex r)
  end.

Fixpoint bytesToHex (s : string) : string :=
  match s with
  | EmptyString => EmptyString
  | String c r =>
      let n := nat_of_ascii c in
      String (hexDigit (Nat.div n 16)) (String (hexDigit (Nat.modulo n 16)) (bytesToHex r))
  end.

(** The cast that Mongoose applies to a string at an ObjectId path: 24
    hexadecimal digits, or 12 bytes; anything else is a cast error. *)
Definition castObjectId (s : string) : option string :=
  if Nat.eqb (String.length s) 24 && allHex s then Some (lowerHex s)
  else if Nat.eqb (String.length s) 12 then Some (bytesToHex s)
  else None.

(** [mongoose.Types.ObjectId.isValid]. *)
Definition ObjectId_isValid (s : string) : bool :=
  match castObjectId s with Some _ => true | None => false end.

(** [arr.includes(x)] on an array of ids, [x] a string. *)
Definition includes (arr : list string) (x : string) : bool :=
  existsb (String.eqb x) arr.

(* ===================================================================== *)
(** ** Schemas *)

Inductive Status := online | offline | away | busy.

Module User.
Record t := mk {
  name : string;
  avatar : string;
  status : Status;
  lastSeen : option Date;
  blockedUsers : list string
}.
End User.

Record Reaction := mkReaction { user : string; emoji : string }.

#[global] Instance Reaction_eq_dec : EqDecision Reaction.
Proof. solve_decision. Defined.

Definition messageTypeEnum : list string :=
  ["text"; "image"; "video"; "audio"; "document"; "location"].

Module Message.
Record t := mk {
  _id : string;
  sender : string;
  receiver : string;
  text : string;
  messageType : string;
  mediaUrl : option string;
  isRead : bool;
  readAt : option Date;
  reactions : list Reaction;
  replyTo : option string;
  isDeleted : bool;
  deletedFor : list string;
  oneTimeView : bool;
  viewedAt : option Date;
  timestamp : Date
}.

Definition set_read (r : bool) (at_ : option Date) (m : t) : t :=
  mk (_id m) (sender m) (receiver m) (text m) (messageType m) (mediaUrl m)
     r at_ (reactions m) (replyTo m) (isDeleted m) (deletedFor m)
     (oneTimeView m) (viewedAt m) (timestamp m).

Definition set_viewedAt (v : option Date) (m : t) : t :=
  mk (_id m) (sender m) (receiver m) (text m) (messageType m) (mediaUrl m)
     (isRead m) (readAt m) (reactions m) (replyTo m) (isDeleted m)
     (deletedFor m) (oneTimeView m) v (timestamp m).

Definition set_reactions (rs : list Reaction) (m : t) : t :=
  mk (_id m) (sender m) (receiver m) (text m) (messageType m) (mediaUrl m)
     (isRead m) (readAt m) rs (replyTo m) (isDeleted m) (deletedFor m)
     (oneTimeView m) (viewedAt m) (timestamp m).

Definition set_deleted (d : bool) (body : string) (m : t) : t :=
  mk (_id m) (sender m) (receiver m) body (messageType m) (mediaUrl m)
     (isRead m) (readAt m) (reactions m) (replyTo m) d (deletedFor m)
     (oneTimeView m) (viewedAt m) (timestamp m).

Definition set_deletedFor (ds : list string) (m : t) : t :=
  mk (_id m) (sender m) (receiver m) (text m) (messageType m) (mediaUrl m)
     (isRead m) (readAt m) (reactions m) (replyTo m) (isDeleted m) ds
     (oneTimeView m) (viewedAt m) (timestamp m).
End Message.

(** The argument of [new Message({...})], before casting. *)
Module Draft.
Record t := mk {
  sender : option string;
  receiver : option string;
  text : option string;
  messageType : string;
  mediaUrl : option string;
  replyTo : option string;
  oneTimeView : bool;
  timestamp : Date
}.
End Draft.

(** What [populate(path, "name avatar")] puts in place of a user id. *)
Record UserRef := mkUserRef { ref_id : string; ref_name : string; ref_avatar : string }.

(** A message after the three [populate] calls; a reference that does not
    resolve is [null]. *)
Module Populated.
Record t := mk {
  doc : Message.t;
  sender : option UserRef;
  receiver : option UserRef;
  replyTo : option (Message.t * option UserRef)
}.
End Populated.

(* ===================================================================== *)
(** ** Store, errors and the handler monad *)

Record Db := mkDb {
  messages : list Message.t;
  users : gmap string User.t
}.

Inductive Error :=
| CastError (path : string) (value : string)
| ValidationError (path : string)
| TypeError (what : string)
| DuplicateKey (id : string).

Inductive Result (A : Type) :=
| Ok (a : A)
| Throw (e : Error).
Arguments Ok {A} a.
Arguments Throw {A} e.

(** A computation over a state [S] that may throw; the state reached
    before a throw is kept. *)
Definition M (S A : Type) : Type := S -> Result A * S.

Definition ret {S A} (a : A) : M S A := fun s => (Ok a, s).

Definition bind {S A B} (c : M S A) (k : A -> M S B) : M S B :=
  fun s => match c s with
           | (Ok a, s') => k a s'
           | (Throw e, s') => (Throw e, s')
           end.

Definition throw {S A} (e : Error) : M S A := fun s => (Throw e, s).

Definition get {S} : M S S := fun s => (Ok s, s).

Definition modify {S} (f : S -> S) : M S unit := fun s => (Ok tt, f s).

(** [try { c } catch (error) { h error }]. *)
Definition tryCatch {S A} (c : M S A) (h : Error -> M S A) : M S A :=
  fun s => match c s with
           | (Ok a, s') => (Ok a, s')
           | (Throw e, s') => h e s'
           end.

Declare Scope handler_scope.
Delimit Scope handler_scope with handler.
Notation "'let*' x ':=' c 'in' k" := (bind c (fun x => k))
  (at level 10, x name, c at level 100, k at level 200) : handler_scope.
Notation "c ';;;' k" := (bind c (fun _ => k))
  (at level 100, k at level 200, right associativity) : handler_scope.
Local Open Scope handler_scope.

(* ===================================================================== *)
(** ** Mongoose queries *)

Definition lookupMessage (id : string) (ms : list Message.t) : option Message.t :=
  find (fun m => String.eqb (Message._id m) id) ms.
Arguments lookupMessage : simpl never.

(** [User.findById(id)]: [undefined] finds nothing, a string that is not
    an ObjectId is a cast error. *)
Definition User_findById (id : option string) : M Db (option (string * User.t)) :=
  match id with
  | None => ret None
  | Some raw =>
      match castObjectId raw with
      | None => throw (CastError "_id" raw)
      | Some oid =>
          let* db := get in
          ret (match users db !! oid with
               | Some u => Some (oid, u)
               | None => None
               end)
      end
  end.

(** [Message.findById(id)]. *)
Definition Message_findById (raw : string) : M Db (option Message.t) :=
  match castObjectId raw with
  | None => throw (CastError "_id" raw)
  | Some oid => let* db := get in ret (lookupMessage oid (messages db))
  end.

(** Schema validation of a new document (part_000): [sender],
    [receiver] and [text] are required, ids must cast, [messageType] is
    one of the enumerated kinds. *)
Definition validate (newId : string) (d : Draft.t) : Result Message.t :=
  match Draft.sender d with
  | None => Throw (ValidationError "sender")
  | Some s =>
      match castObjectId s with
      | None => Throw (ValidationError "sender")
      | Some s' =>
          match Draft.receiver d with
          | None => Throw (ValidationError "receiver")
          | Some r =>
              match castObjectId r with
              | None => Throw (ValidationError "receiver")
              | Some r' =>
                  if negb (truthy (Draft.text d)) then Throw (ValidationError "text")
                  else if negb (includes messageTypeEnum (Draft.messageType d))
                  then Throw (ValidationError "messageType")
                  else
                    match
                      match Draft.replyTo d with
                      | None => Some None
                      | Some p => match castObjectId p with
                                  | Some p' => Some (Some p')
                                  | None => None
                                  end
                      end
                    with
                    | None => Throw (ValidationError "replyTo")
                    | Some reply =>
                        Ok (Message.mk newId s' r' (orElse (Draft.text d) "")
                              (Draft.messageType d) (Draft.mediaUrl d)
                              false None [] reply false []
                              (Draft.oneTimeView d) None (Draft.timestamp d))
                    end
              end
          end
      end
  end.

(** [newMessage.save()] of a document made by [new Message(d)], whose
    generated [_id] is [newId]; the collection's unique index on [_id]
    refuses an id that is already stored. *)
Definition Message_create (newId : string) (d : Draft.t) : M Db Message.t :=
  match validate newId d with
  | Throw e => throw e
  | Ok m =>
      let* db := get in
      match lookupMessage newId (messages db) with
      | Some _ => throw (DuplicateKey newId)
      | None =>
          modify (fun db => mkDb (messages db ++ [m]) (users db));;;
          ret m
      end
  end.

(** The collection after the document with the [_id] of [m] has been
    overwritten by [m] (an [updateOne] by [_id]). *)
Fixpoint replaceDoc (m : Message.t) (ms : list Message.t) : list Message.t :=
  match ms with
  | [] => []
  | x :: rest =>
      if String.eqb (Message._id x) (Message._id m) then m :: rest
      else x :: replaceDoc m rest
  end.

(** [message.save()] of a document loaded from the store. *)
Definition Message_save (m : Message.t) : M Db unit :=
  modify (fun db => mkDb (replaceDoc m (messages db)) (users db)).

Definition populateUser (db : Db) (id : string) : option UserRef :=
  match users db !! id with
  | Some u => Some (mkUserRef id (User.name u) (User.avatar u))
  | None => None
  end.

(** [.populate("sender", "name avatar").populate("receiver", "name
    avatar").populate({path: "replyTo", populate: {path: "sender", ...}})] *)
Definition populate (db : Db) (m : Message.t) : Populated.t :=
  Populated.mk m
    (populateUser db (Message.sender m))
    (populateUser db (Message.receiver m))
    (match Message.replyTo m with
     | None => None
     | Some rid =>
         match lookupMessage rid (messages db) with
         | None => None
         | Some r => Some (r, populateUser db (Message.sender r))
         end
     end).

Definition byTimestamp (a b : Message.t) : Prop :=
  Message.timestamp a <= Message.timestamp b.

#[global] Instance byTimestamp_dec a b : Decision (byTimestamp a b) :=
  decide (Message.timestamp a <= Message.timestamp b).

(** The filter of [getMessages]:
    [{$or: [{sender: cur, receiver: other}, {sender: other, receiver: cur}],
      deletedFor: {$ne: cur}}]. *)
Definition between (cur other : string) (m : Message.t) : bool :=
  ((String.eqb (Message.sender m) cur && String.eqb (Message.receiver m) other)
   || (String.eqb (Message.sender m) other && String.eqb (Message.receiver m) cur))
  && negb (includes (Message.deletedFor m) cur).

(** [Message.find(filter).sort({timestamp: 1})] followed by the
    [populate] calls. *)
Definition Message_findBetween (cur other : string) : M Db (list Populated.t) :=
  match castObjectId cur with
  | None => throw (CastError "sender" cur)
  | Some c =>
      match castObjectId other with
      | None => throw (CastError "sender" other)
      | Some o =>
          let* db := get in
          ret (map (populate db)
                   (merge_sort byTimestamp (filter (fun m => between c o m = true) (messages db))))
      end
  end.

(** [Message.updateMany({_id: {$in: ids}}, {isRead: true, readAt: at})]. *)
Definition Message_markManyRead (ids : list string) (at_ : Date) : M Db unit :=
  modify (fun db =>
    mkDb (map (fun x => if includes ids (Message._id x)
                        then Message.set_read true (Some at_) x else x)
              (messages db))
         (users db)).

(** [Message.findById(id).populate(...)], [id] the ObjectId of a saved
    document. *)
Definition Message_findByIdPopulated (id : string) : M Db (option Populated.t) :=
  let* db := get in
  ret (match lookupMessage id (messages db) with
       | Some m => Some (populate db m)
       | None => None
       end).

(* ===================================================================== *)
(** ** HTTP responses *)

Inductive Json :=
| Info (message : string)
| Failure (message : string) (error : Error)
| OneMessage (m : option Populated.t)
| ManyMessages (ms : list Populated.t)
| ReactionsUpdated (message : string) (rs : list Reaction).

(** [res.status(code).json(body)]. *)
Record Response := mkResponse { code : nat; json : Json }.

(** The error kinds of the specification, read off the status code. *)
Inductive ErrorKind := NotFound | Forbidden | BadRequest | Transient.

Definition kindOf (r : Response) : option ErrorKind :=
  match code r with
  | 400%nat => Some BadRequest
  | 403%nat => Some Forbidden
  | 404%nat => Some NotFound
  | 500%nat => Some Transient
  | _ => None
  end.

(* ===================================================================== *)
(** ** src/controllers/messageController.js *)

Module messageController.

(** [req.body] of [POST /api/messages]. *)
Record SendBody := mkSendBody {
  receiver : option string;
  text : option string;
  messageType : option string;
  mediaUrl : option string;
  replyTo : option string;
  oneTimeView : bool
}.

Definition tombstone : string := "This message was deleted".

(** [sendMessage]; [sender] is [req.user.id], [newId] the [_id] that
    [new Message] generates and [now] the [new Date()] of line 33. *)
Definition sendMessage (sender : string) (b : SendBody) (newId : string) (now : Date)
  : M Db Response :=
  tryCatch
    (let* receiverUser := User_findById (receiver b) in
     match receiverUser with
     | None => ret (mkResponse 404 (Info "Receiver not found"))
     | Some (_, ru) =>
         if includes (User.blockedUsers ru) sender
         then ret (mkResponse 403 (Info "You cannot send messages to this user"))
         else
           let* savedMessage :=
             Message_create newId
               (Draft.mk (Some sender) (receiver b) (text b)
                  (orElse (messageType b) "text") (orNull (mediaUrl b))
                  (orNull (replyTo b)) (oneTimeView b) now) in
           let* populatedMessage := Message_findByIdPopulated (Message._id savedMessage) in
           ret (mkResponse 201 (OneMessage populatedMessage))
     end)
    (fun error => ret (mkResponse 500 (Failure "Server error sending message" error))).

(** The callback of [messages.filter] at line 91; [msg.sender._id] of a
    sender that did not populate is a TypeError. *)
Fixpoint unreadFrom (otherUserId : string) (ms : list Populated.t)
  : Result (list Populated.t) :=
  match ms with
  | [] => Ok []
  | msg :: rest =>
      match Populated.sender msg with
      | None => Throw (TypeError "msg.sender is null")
      | Some s =>
          match unreadFrom otherUserId rest with
          | Throw e => Throw e
          | Ok l =>
              Ok (if String.eqb (ref_id s) otherUserId
                     && negb (Message.isRead (Populated.doc msg))
                  then msg :: l else l)
          end
      end
  end.

(** [getMessages]; [now] is the [new Date()] of line 100. *)
Definition getMessages (currentUserId otherUserId : string) (now : Date)
  : M Db Response :=
  tryCatch
    (if negb (ObjectId_isValid otherUserId)
     then ret (mkResponse 400 (Info "Invalid user ID"))
     else
       let* messages := Message_findBetween currentUserId otherUserId in
       match unreadFrom otherUserId messages with
       | Throw e => throw e
       | Ok unreadMessages =>
           (if Nat.ltb 0 (length unreadMessages)
            then Message_markManyRead
                   (map (fun msg => Message._id (Populated.doc msg)) unreadMessages) now
            else ret tt);;;
           ret (mkResponse 200 (ManyMessages messages))
       end)
    (fun error => ret (mkResponse 500 (Failure "Server error getting messages" error))).

(** [markMessageRead]; [nowRead] and [nowViewed] are the [new Date()] of
    lines 133 and 137. *)
Definition markMessageRead (messageId userId : string) (nowRead nowViewed : Date)
  : M Db Response :=
  tryCatch
    (let* found := Message_findById messageId in
     match found with
     | None => ret (mkResponse 404 (Info "Message not found"))
     | Some message =>
         if negb (String.eqb (Message.receiver message) userId)
         then ret (mkResponse 403 (Info "Not authorized to mark this message as read"))
         else
           let message := Message.set_read true (Some nowRead) message in
           let message :=
             if Message.oneTimeView message
                && match Message.viewedAt message with None => true | Some _ => false end
             then Message.set_viewedAt (Some nowViewed) message
             else message in
           Message_save message;;;
           ret (mkResponse 200 (Info "Message marked as read"))
     end)
    (fun error => ret (mkResponse 500 (Failure "Server error marking message as read" error))).

(** [deleteMessage]; [deleteForEveryone] is the query parameter. *)
Definition deleteMessage (messageId userId : string) (deleteForEveryone : option string)
  : M Db Response :=
  tryCatch
    (let* found := Message_findById messageId in
     match found with
     | None => ret (mkResponse 404 (Info "Message not found"))
     | Some message =>
         let isSender := String.eqb (Message.sender message) userId in
         let isReceiver := String.eqb (Message.receiver message) userId in
         if negb isSender && negb isReceiver
         then ret (mkResponse 403 (Info "Not authorized to delete this message"))
         else
           (if bool_decide (deleteForEveryone = Some "true") && isSender
            then Message_save (Message.set_deleted true tombstone message)
            else Message_save
                   (Message.set_deletedFor (Message.deletedFor message ++ [userId]) message));;;
           ret (mkResponse 200 (Info "Message deleted successfully"))
     end)
    (fun error => ret (mkResponse 500 (Failure "Server error deleting message" error))).

Definition sameReaction (userId e : string) (reaction : Reaction) : bool :=
  String.eqb (user reaction) userId && String.eqb (emoji reaction) e.

(** The reaction list after the toggle of lines 209-222. *)
Definition toggle (userId e : string) (rs : list Reaction) : list Reaction :=
  match find (sameReaction userId e) rs with
  | Some _ => List.filter (fun reaction => negb (sameReaction userId e reaction)) rs
  | None => rs ++ [mkReaction userId e]
  end.

(** [addReaction]; [emoji] is [req.body.emoji]. *)
Definition addReaction (messageId userId : string) (emoji : option string)
  : M Db Response :=
  tryCatch
    (if negb (truthy emoji)
     then ret (mkResponse 400 (Info "Emoji is required"))
     else
       let* found := Message_findById messageId in
       match found with
       | None => ret (mkResponse 404 (Info "Message not found"))
       | Some message =>
           let message :=
             Message.set_reactions
               (toggle userId (orElse emoji "") (Message.reactions message)) message in
           Message_save message;;;
           ret (mkResponse 200 (ReactionsUpdated "Reaction updated" (Message.reactions message)))
       end)
    (fun error => ret (mkResponse 500 (Failure "Server error adding reaction" error))).

End messageController.

(* ===================================================================== *)
(** ** The live layer: sockets, rooms and emitted events *)

(** The payload of the client's [sendMessage] event. *)
Module MessageData.
Record t := mk {
  sender : option string;
  receiver : option string;
  text : option string;
  messageType : option string;
  mediaUrl : option string;
  replyTo : option string;
  oneTimeView : bool
}.
End MessageData.

(** What a [newMessage] event carries: the populated stored document
    (index.js) or the client's payload as received (part_002). *)
Inductive NewMessagePayload :=
| Stored (m : option Populated.t)
| Relayed (d : MessageData.t).

Inductive Event :=
| messageError (message : string) (error : option Error)
| newMessage (payload : NewMessagePayload)
| userStatusUpdate (userId : option string) (status : Status)
| messageReadUpdate (messageId : string) (readAt : option Date).

(** [socket.emit], [io.to(room).emit], [socket.to(room).emit] and
    [socket.broadcast.emit]. *)
Inductive Target :=
| ToSocket (socketId : string)
| ToRoom (room : option string)
| ToRoomExcept (socketId : string) (room : option string)
| Broadcast (socketId : string).

(** The observable history of a server: completed saves of new messages
    and emitted events, oldest first. *)
Inductive Effect :=
| Persisted (messageId : string)
| Emitted (target : Target) (event : Event).

(** Per-connection state: the closure variable [currentUserId] of
    index.js and the rooms the socket has joined. *)
Record Socket := mkSocket {
  currentUserId : option string;
  rooms : gset string
}.

Record Server := mkServer {
  db : Db;
  sockets : gmap string Socket;
  history : list Effect
}.

Definition liftDb {A} (c : M Db A) : M Server A :=
  fun w => match c (db w) with
           | (r, d) => (r, mkServer d (sockets w) (history w))
           end.

Definition record (e : Effect) : M Server unit :=
  modify (fun w => mkServer (db w) (sockets w) (history w ++ [e])).

Definition emit (t : Target) (e : Event) : M Server unit := record (Emitted t e).

(** [await newMessage.save()]: the save, then its completion in the history. *)
Definition persist (newId : string) (d : Draft.t) : M Server Message.t :=
  let* saved := liftDb (Message_create newId d) in
  record (Persisted (Message._id saved));;;
  ret saved.

(** The sockets an emit reaches. *)
Definition recipients (w : Server) (t : Target) : gset string :=
  match t with
  | ToSocket s => if bool_decide (s ∈ dom (sockets w)) then {[ s ]} else ∅
  | ToRoom (Some r) => dom (filter (fun kv => r ∈ rooms (snd kv)) (sockets w))
  | ToRoomExcept s (Some r) =>
      dom (filter (fun kv => r ∈ rooms (snd kv)) (sockets w)) ∖ {[ s ]}
  | ToRoom None | ToRoomExcept _ None => ∅
  | Broadcast s => dom (sockets w) ∖ {[ s ]}
  end.

(** Persist-then-route, as a check of a history: every [newMessage]
    carries a stored document whose save is earlier in the history. *)
Fixpoint routedAfterPersist (saved : list string) (h : list Effect) : bool :=
  match h with
  | [] => true
  | Persisted id :: rest => routedAfterPersist (id :: saved) rest
  | Emitted _ (newMessage (Stored (Some m))) :: rest =>
      includes saved (Message._id (Populated.doc m)) && routedAfterPersist saved rest
  | Emitted _ (newMessage _) :: rest => false
  | Emitted _ _ :: rest => routedAfterPersist saved rest
  end.

(** The [newMessage] events of a history. *)
Definition routed (h : list Effect) : list NewMessagePayload :=
  omap (fun e => match e with
                 | Emitted _ (newMessage p) => Some p
                 | _ => None
                 end) h.

(* ===================================================================== *)
(** ** src/index.js *)

Module index.

(** [User.findByIdAndUpdate(userId, {status, lastSeen})]; a [lastSeen]
    of [undefined] is dropped from the update. *)
Definition User_findByIdAndUpdate (userId : option string) (status : Status)
    (lastSeen : option Date) : M Db unit :=
  match userId with
  | None => ret tt
  | Some raw =>
      match castObjectId raw with
      | None => throw (CastError "_id" raw)
      | Some oid =>
          modify (fun d =>
            mkDb (messages d)
                 (alter (fun u =>
                           User.mk (User.name u) (User.avatar u) status
                             (match lastSeen with
                              | Some t => Some t
                              | None => User.lastSeen u
                              end)
                             (User.blockedUsers u))
                        oid (users d)))
      end
  end.

(** [updateUserStatus]; [now] is the [new Date()] of line 299. *)
Definition updateUserStatus (userId : option string) (status : Status) (now : Date)
  : M Server bool :=
  tryCatch
    (liftDb (User_findByIdAndUpdate userId status
               (match status with offline => Some now | _ => None end));;;
     ret true)
    (fun error => ret false).

(** [io.on("connection", ...)]: the socket is registered, in the room
    named by its own id, with [currentUserId = null]. *)
Definition connection (socketId : string) : M Server unit :=
  modify (fun w =>
    mkServer (db w) (<[socketId := mkSocket None {[ socketId ]}]> (sockets w)) (history w)).

(** [socket.on("join", ...)].  The status update is started before the
    broadcast and not awaited. *)
Definition join (socketId : string) (userId : option string) (now : Date)
  : M Server unit :=
  if truthy userId then
    modify (fun w =>
      mkServer (db w)
        (alter (fun s => mkSocket userId ({[ orElse userId "" ]} ∪ rooms s))
               socketId (sockets w))
        (history w));;;
    updateUserStatus userId online now;;;
    emit (Broadcast socketId) (userStatusUpdate userId online)
  else ret tt.

(** [socket.on("sendMessage", ...)]; [newId] is the generated [_id] and
    [now] the schema default [Date.now] of [timestamp]. *)
Definition sendMessage (socketId : string) (messageData : MessageData.t)
    (newId : string) (now : Date) : M Server unit :=
  let sender := MessageData.sender messageData in
  let receiver := MessageData.receiver messageData in
  let text := MessageData.text messageData in
  tryCatch
    (if negb (truthy sender) || negb (truthy receiver) || negb (truthy text)
     then emit (ToSocket socketId) (messageError "Missing required fields" None)
     else
       let* receiverUser := liftDb (User_findById receiver) in
       if match receiverUser with
          | Some (_, ru) => includes (User.blockedUsers ru) (orElse sender "")
          | None => false
          end
       then emit (ToSocket socketId) (messageError "Cannot send message to this user" None)
       else
         let* savedMessage :=
           persist newId
             (Draft.mk sender receiver text
                (orElse (MessageData.messageType messageData) "text")
                (orNull (MessageData.mediaUrl messageData))
                (orNull (MessageData.replyTo messageData))
                (MessageData.oneTimeView messageData) now) in
         let* populatedMessage :=
           liftDb (Message_findByIdPopulated (Message._id savedMessage)) in
         emit (ToRoom sender) (newMessage (Stored populatedMessage));;;
         emit (ToRoom receiver) (newMessage (Stored populatedMessage)))
    (fun error =>
       emit (ToSocket socketId) (messageError "Failed to send message" (Some error))).

(** [socket.on("messageRead", ...)]; the [viewed] path it assigns is not
    in the schema and is not stored. *)
Definition messageRead (socketId : string) (messageId readerId : string) (now : Date)
  : M Server unit :=
  tryCatch
    (let* found := liftDb (Message_findById messageId) in
     match found with
     | Some message =>
         if String.eqb (Message.receiver message) readerId then
           let message := Message.set_read true (Some now) message in
           liftDb (Message_save message);;;
           emit (ToRoomExcept socketId (Some (Message.sender message)))
                (messageReadUpdate messageId (Message.readAt message))
         else ret tt
     | None => ret tt
     end)
    (fun error => ret tt).

(** [socket.on("userOnline", ...)]. *)
Definition userOnline (socketId : string) (userId : option string) (now : Date)
  : M Server unit :=
  tryCatch
    (updateUserStatus userId online now;;;
     emit (Broadcast socketId) (userStatusUpdate userId online))
    (fun error => ret tt).

(** [socket.on("userOffline", ...)]. *)
Definition userOffline (socketId : string) (userId : option string) (now : Date)
  : M Server unit :=
  tryCatch
    (updateUserStatus userId offline now;;;
     emit (Broadcast socketId) (userStatusUpdate userId offline))
    (fun error => ret tt).

(** [socket.on("disconnect", ...)]: Socket.IO has already taken the
    socket out of every room when the handler runs. *)
Definition disconnect (socketId : string) (now : Date) : M Server unit :=
  let* w := get in
  let closureUserId :=
    match sockets w !! socketId with
    | Some s => currentUserId s
    | None => None
    end in
  modify (fun w => mkServer (db w) (delete socketId (sockets w)) (history w));;;
  if truthy closureUserId then
    updateUserStatus closureUserId offline now;;;
    emit (Broadcast socketId) (userStatusUpdate closureUserId offline)
  else ret tt.

End index.

(* ===================================================================== *)
(** ** src/unnamed/part_002: the relay-only server *)

Module part_002.

(** [socket.on("sendMessage", ...)]: the payload is relayed as received. *)
Definition sendMessage (socketId : string) (messageData : MessageData.t)
  : M Server unit :=
  tryCatch
    (emit (ToRoom (MessageData.sender messageData)) (newMessage (Relayed messageData));;;
     emit (ToRoom (MessageData.receiver messageData)) (newMessage (Relayed messageData)))
    (fun error => ret tt).

End part_002.

(* ===================================================================== *)
(** ** Sample data *)

Module Sample.

Definition alice : string := "aaaaaaaaaaaaaaaaaaaaaaaa".
Definition bob : string := "bbbbbbbbbbbbbbbbbbbbbbbb".
Definition mallory : string := "eeeeeeeeeeeeeeeeeeeeeeee".
(** A well-formed id that no user has. *)
Definition ghost : string := "0123456789abcdef01234567".

Definition users : gmap string User.t :=
  <[alice := User.mk "Alice" "alice.png" offline None []]>
    (<[bob := User.mk "Bob" "bob.png" offline None [mallory]]>
       (<[mallory := User.mk "Mallory" "mallory.png" offline None []]> ∅)).

(** An unread text message from Alice to Bob. *)
Definition hello : Message.t :=
  Message.mk "111111111111111111111111" alice bob "hello" "text" None
    false None [mkReaction bob "like"; mkReaction alice "heart"] None false []
    false None 1000.

(** A later one-time-view message from Bob to Alice. *)
Definition secret : Message.t :=
  Message.mk "222222222222222222222222" bob alice "psst" "image"
    (Some "https://cdn.example/p.png") false None [] None false [] true None 2000.

Definition store : Db := mkDb [secret; hello] users.

Definition fresh : string := "333333333333333333333333".

Definition server : Server := mkServer store ∅ [].

Definition hi (from to : string) (body : string) : MessageData.t :=
  MessageData.mk (Some from) (Some to) (Some body) (Some "text") None None false.

End Sample.

(* ===================================================================== *)
(** ** Observations used in the statements *)


(** The ids whose save is recorded once the history [h] has been
    replayed on top of [saved]. *)
Fixpoint savedAfter (saved : list string) (h : list Effect) : list string :=
  match h with
  | [] => saved
  | Persisted id :: rest => savedAfter (id :: saved) rest
  | Emitted _ _ :: rest => savedAfter saved rest
  end.

(** What [getMessages] lists for [cur] about [other]: the stored
    messages that pass its filter, in the order of its sort. *)
Definition conversation (cur other : string) (d : Db) : list Message.t :=
  merge_sort byTimestamp (filter (fun m => between cur other m = true) (messages d)).

(** The ids that [getMessages] hands to [updateMany]: the listed messages
    sent by [other] and not yet read. *)
Definition unreadIds (other : string) (ms : list Message.t) : list string :=
  map Message._id
    (List.filter (fun m => String.eqb (Message.sender m) other && negb (Message.isRead m)) ms).

(** The [_id]s of the stored messages, in store order. *)
Definition ids (d : Db) : list string := map Message._id (messages d).

(** [readAt] is set only together with [isRead]: a message that is not
    read has no read time. *)
Definition unstamped (m : Message.t) : Prop :=
  Message.isRead m = false -> Message.readAt m = None.

(** Unfolds a handler at a state where its lookup is known. *)
Ltac run_handler H :=
  unfold tryCatch, bind; rewrite H; simpl;
  unfold Message_save, modify, ret, bind; simpl.

(* ===================================================================== *)
(** * Properties *)

Import messageController.

(** ** Store lemmas *)

Section StoreFacts.

Implicit Types (m : Message.t) (ms : list Message.t) (id : string).

Lemma lookupMessage_id id ms m :
  lookupMessage id ms = Some m -> Message._id m = id.
Proof.
  unfold lookupMessage. intros H. apply find_some in H as [_ H].
  by apply String.eqb_eq.
Qed.

Lemma lookupMessage_elem id ms m :
  lookupMessage id ms = Some m -> m ∈ ms.
Proof.
  unfold lookupMessage. intros H. apply find_some in H as [H _].
  by apply list_elem_of_In.
Qed.

Lemma lookupMessage_replaceDoc id m' ms :
  lookupMessage id (replaceDoc m' ms) =
    if String.eqb (Message._id m') id
    then (match lookupMessage id ms with Some _ => Some m' | None => None end)
    else lookupMessage id ms.
Proof.
  unfold lookupMessage.
  induction ms as [|x ms IH]; simpl.
  - by destruct (String.eqb _ _).
  - destruct (String.eqb (Message._id x) (Message._id m')) eqn:Hx; simpl.
    + apply String.eqb_eq in Hx. rewrite Hx.
      by destruct (String.eqb (Message._id m') id).
    + destruct (String.eqb (Message._id x) id) eqn:Hxi.
      * apply String.eqb_eq in Hxi. subst id. by rewrite String.eqb_sym, Hx.
      * apply IH.
Qed.

Lemma replaceDoc_replaceDoc m1 m2 ms :
  Message._id m2 = Message._id m1 ->
  replaceDoc m2 (replaceDoc m1 ms) = replaceDoc m2 ms.
Proof.
  intros Hid. induction ms as [|x ms IH]; [done|]. simpl.
  destruct (String.eqb (Message._id x) (Message._id m1)) eqn:Hx; simpl.
  - by rewrite Hid, String.eqb_refl, Hx.
  - by rewrite Hid, Hx, IH.
Qed.

Lemma elem_replaceDoc m m' ms :
  m ∈ ms -> Message._id m' = Message._id m -> m' ∈ replaceDoc m' ms.
Proof.
  intros Hin Hid. induction ms as [|y ms IH]; [by apply elem_of_nil in Hin|]. simpl.
  destruct (String.eqb (Message._id y) (Message._id m')) eqn:E; [by left|].
  right. apply IH. apply elem_of_cons in Hin as [->|Hin]; [|done].
  by rewrite Hid, String.eqb_refl in E.
Qed.


Lemma Message_findById_found raw db m :
  Message_findById raw db = (Ok (Some m), db) ->
  exists oid, castObjectId raw = Some oid
              /\ lookupMessage oid (messages db) = Some m
              /\ Message._id m = oid.
Proof.
  unfold Message_findById. destruct (castObjectId raw) as [oid|]; [|discriminate].
  unfold bind, get, ret. intros [= H]. exists oid. eauto using lookupMessage_id.
Qed.

Lemma Message_findById_state raw db r db' :
  Message_findById raw db = (r, db') -> db' = db.
Proof.
  unfold Message_findById. destruct (castObjectId raw).
  - unfold bind, get, ret. by intros [= _ <-].
  - unfold throw. by intros [= _ <-].
Qed.

Lemma castObjectId_nonempty raw oid : castObjectId raw = Some oid -> raw <> "".
Proof. intros H ->. discriminate H. Qed.

End StoreFacts.

(** ** markMessageRead *)

(** C5. [markMessageRead] by any user other than the stored receiver of an
    existing message answers 403 (Forbidden) and leaves the whole store,
    hence the message's [isRead], [readAt] and [viewedAt], as it was. *)
Theorem markRead_not_receiver_forbidden
    (db : Db) (messageId : string) (m : Message.t) (u : string) (nowRead nowViewed : Date) :
  Message_findById messageId db = (Ok (Some m), db) ->
  Message.receiver m <> u ->
  markMessageRead messageId u nowRead nowViewed db
  = (Ok (mkResponse 403 (Info "Not authorized to mark this message as read")), db)
  /\ kindOf (mkResponse 403 (Info "Not authorized to mark this message as read"))
     = Some Forbidden.
Proof.
  intros Hfind Hne. split; [|done].
  unfold markMessageRead. run_handler Hfind.
  apply String.eqb_neq in Hne. by rewrite Hne.
Qed.

(** The state of a message after a successful [markMessageRead] whose
    clock reads were [nowRead] and [nowViewed]. *)
Lemma markRead_receiver_ok
    (db : Db) (messageId : string) (m : Message.t) (nowRead nowViewed : Date) :
  Message_findById messageId db = (Ok (Some m), db) ->
  exists m1,
    markMessageRead messageId (Message.receiver m) nowRead nowViewed db
    = (Ok (mkResponse 200 (Info "Message marked as read")),
       mkDb (replaceDoc m1 (messages db)) (users db))
    /\ Message._id m1 = Message._id m
    /\ Message.receiver m1 = Message.receiver m
    /\ Message.isRead m1 = true
    /\ Message.readAt m1 = Some nowRead
    /\ Message.viewedAt m1
       = (if Message.oneTimeView m then
            match Message.viewedAt m with Some v => Some v | None => Some nowViewed end
          else Message.viewedAt m)
    /\ Message.oneTimeView m1 = Message.oneTimeView m
    /\ Message.set_read (Message.isRead m) (Message.readAt m)
         (Message.set_viewedAt (Message.viewedAt m) m1) = m.
Proof.
  intros Hfind.
  unfold markMessageRead. run_handler Hfind. rewrite String.eqb_refl. simpl.
  destruct m as [i s r tx ty mu ir ra rs rt isd df otv va ts]. simpl.
  destruct otv, va; simpl; eexists; (split; [reflexivity|]); simpl; done.
Qed.

(** C4, as the code has it.  For a message whose receiver is [u], a
    second [markMessageRead] is not an error and changes nothing but
    [readAt], which it stamps again with its own clock read: [isRead]
    stays true, [viewedAt] keeps the value the first call left, every
    other document is untouched, and the two states coincide exactly when
    the second clock read equals the first. *)
Theorem markRead_twice_restamps_readAt
    (db : Db) (messageId : string) (m : Message.t) (u : string) (t1 v1 t2 v2 : Date) :
  Message_findById messageId db = (Ok (Some m), db) ->
  Message.receiver m = u ->
  exists m1,
    let once := markMessageRead messageId u t1 v1 db in
    let twice := markMessageRead messageId u t2 v2 (snd once) in
    once = (Ok (mkResponse 200 (Info "Message marked as read")),
            mkDb (replaceDoc m1 (messages db)) (users db))
    /\ twice = (Ok (mkResponse 200 (Info "Message marked as read")),
                mkDb (replaceDoc (Message.set_read true (Some t2) m1) (messages db))
                     (users db))
    /\ Message.isRead m1 = true
    /\ Message.readAt m1 = Some t1
    /\ (snd twice = snd once <-> t2 = t1).
Proof.
  intros Hfind <-.
  destruct (markRead_receiver_ok db messageId m t1 v1 Hfind)
    as (m1 & Honce & Hid & Hrcv & Hread & Hat & Hview & Hotv & _).
  destruct (Message_findById_found _ _ _ Hfind) as (oid & Hcast & Hlook & Hoid).
  exists m1. cbn zeta. rewrite Honce. cbn [snd].
  set (db1 := mkDb (replaceDoc m1 (messages db)) (users db)).
  assert (Hfind1 : Message_findById messageId db1 = (Ok (Some m1), db1)).
  { unfold Message_findById. rewrite Hcast. unfold bind, get, ret, db1.
    cbn [messages]. rewrite lookupMessage_replaceDoc, Hid, Hoid, String.eqb_refl, Hlook. done. }
  destruct (markRead_receiver_ok db1 messageId m1 t2 v2 Hfind1)
    as (m2 & Htwice & Hid2 & _ & Hread2 & Hat2 & Hview2 & Hotv2 & Hrest2).
  assert (Hm2 : m2 = Message.set_read true (Some t2) m1).
  { rewrite <- Hrest2 at 1. destruct m2; cbn in *. subst. f_equal.
    rewrite Hotv, Hview. destruct (Message.oneTimeView m); [|done].
    by destruct (Message.viewedAt m). }
  rewrite Hrcv in Htwice. rewrite Htwice. subst m2. cbn [snd messages users db1].
  rewrite replaceDoc_replaceDoc by done.
  repeat split; try done.
  - intros [= Heq].
    apply (f_equal (lookupMessage oid)) in Heq.
    rewrite !lookupMessage_replaceDoc in Heq. cbn in Heq.
    rewrite Hid, Hoid, String.eqb_refl, Hlook in Heq.
    injection Heq as Heq. apply (f_equal Message.readAt) in Heq.
    cbn in Heq. rewrite Hat in Heq. by injection Heq.
  - intros ->. cbn. do 2 f_equal. destruct m1; cbn in *. by subst.
Qed.

(** ** deleteMessage *)


(** ** addReaction *)

Section Toggle.

Implicit Types (rs : list Reaction) (r : Reaction).

Lemma sameReaction_spec u e r : sameReaction u e r = true <-> r = mkReaction u e.
Proof.
  unfold sameReaction. destruct r as [u' e']. simpl.
  rewrite andb_true_iff, !String.eqb_eq. split; [by intros [-> ->]|by intros [= -> ->]].
Qed.

Lemma sameReaction_refl u e : sameReaction u e (mkReaction u e) = true.
Proof. by apply sameReaction_spec. Qed.

Lemma find_sameReaction_None u e rs :
  find (sameReaction u e) rs = None <-> mkReaction u e ∉ rs.
Proof.
  induction rs as [|x rs IH]; simpl.
  - split; [intros _; apply not_elem_of_nil|done].
  - destruct (sameReaction u e x) eqn:E.
    + apply sameReaction_spec in E as ->. split; [done|]. intros H. destruct H. by left.
    + rewrite IH, not_elem_of_cons. split; [|tauto]. intros H. split; [|done].
      intros <-. by rewrite sameReaction_refl in E.
Qed.

Lemma elem_of_strip u e rs r :
  r ∈ List.filter (fun x => negb (sameReaction u e x)) rs
  <-> r ∈ rs /\ r <> mkReaction u e.
Proof.
  rewrite !list_elem_of_In, filter_In, negb_true_iff. split; intros [H1 H2]; split; try done.
  - intros ->. by rewrite sameReaction_refl in H2.
  - destruct (sameReaction u e r) eqn:E; [|done]. by apply sameReaction_spec in E.
Qed.

Lemma toggle_flips u e rs : mkReaction u e ∈ toggle u e rs <-> mkReaction u e ∉ rs.
Proof.
  unfold toggle. destruct (find _ rs) eqn:E.
  - rewrite elem_of_strip. split; [tauto|]. intros H.
    apply find_sameReaction_None in H. congruence.
  - apply find_sameReaction_None in E. split; [done|]. intros _.
    apply elem_of_app. right. by left.
Qed.

Lemma toggle_others u e rs r :
  r <> mkReaction u e -> r ∈ toggle u e rs <-> r ∈ rs.
Proof.
  intros Hne. unfold toggle. destruct (find _ rs).
  - rewrite elem_of_strip. tauto.
  - rewrite elem_of_app, list_elem_of_singleton. tauto.
Qed.

Lemma toggle_toggle_elem u e rs r : r ∈ toggle u e (toggle u e rs) <-> r ∈ rs.
Proof.
  destruct (sameReaction u e r) eqn:E.
  - apply sameReaction_spec in E as ->. rewrite !toggle_flips.
    destruct (decide (mkReaction u e ∈ rs)); tauto.
  - assert (r <> mkReaction u e) by (intros ->; by rewrite sameReaction_refl in E).
    by rewrite !toggle_others.
Qed.

Lemma strip_absent u e rs :
  mkReaction u e ∉ rs -> List.filter (fun x => negb (sameReaction u e x)) rs = rs.
Proof.
  induction rs as [|x rs IH]; [done|]. rewrite not_elem_of_cons. intros [Hx Hrs]. simpl.
  destruct (sameReaction u e x) eqn:E.
  - apply sameReaction_spec in E. congruence.
  - simpl. f_equal. by apply IH.
Qed.

Lemma toggle_toggle_absent u e rs :
  mkReaction u e ∉ rs -> toggle u e (toggle u e rs) = rs.
Proof.
  intros Habs. pose proof Habs as Hnone. apply find_sameReaction_None in Hnone.
  unfold toggle at 2. rewrite Hnone. unfold toggle.
  assert (Hsome : find (sameReaction u e) (rs ++ [mkReaction u e]) = Some (mkReaction u e)).
  { clear Habs. induction rs as [|x rs IH]; simpl.
    - by rewrite sameReaction_refl.
    - simpl in Hnone. destruct (sameReaction u e x); [done|]. by apply IH. }
  rewrite Hsome, List.filter_app. simpl. rewrite sameReaction_refl. simpl.
  by rewrite app_nil_r, strip_absent.
Qed.

End Toggle.

(** C9. Toggling the same reaction twice on an existing message is two
    successful calls after which the message's reaction set is the
    original one: the first call flips the membership of [(u, e)] and of
    nothing else, the second flips it back.  When [(u, e)] was absent the
    reaction list itself is restored; when it was present the pair comes
    back at the end of the list. *)
Theorem toggleReaction_twice_restores
    (db : Db) (messageId : string) (m : Message.t) (u e : string) :
  Message_findById messageId db = (Ok (Some m), db) ->
  e <> "" ->
  let rs0 := Message.reactions m in
  let rs1 := toggle u e rs0 in
  let rs2 := toggle u e rs1 in
  let once := addReaction messageId u (Some e) db in
  let twice := addReaction messageId u (Some e) (snd once) in
  once = (Ok (mkResponse 200 (ReactionsUpdated "Reaction updated" rs1)),
          mkDb (replaceDoc (Message.set_reactions rs1 m) (messages db)) (users db))
  /\ twice = (Ok (mkResponse 200 (ReactionsUpdated "Reaction updated" rs2)),
              mkDb (replaceDoc (Message.set_reactions rs2 m) (messages db)) (users db))
  /\ (mkReaction u e ∈ rs1 <-> mkReaction u e ∉ rs0)
  /\ (forall r, r <> mkReaction u e -> r ∈ rs1 <-> r ∈ rs0)
  /\ (forall r, r ∈ rs2 <-> r ∈ rs0)
  /\ (mkReaction u e ∉ rs0 -> rs2 = rs0).
Proof.
  intros Hfind He. cbn zeta.
  destruct (Message_findById_found _ _ _ Hfind) as (oid & Hcast & Hlook & Hoid).
  assert (Htruthy : truthy (Some e) = true).
  { cbn. apply negb_true_iff. by apply String.eqb_neq. }
  assert (Hor : orElse (Some e) "" = e).
  { cbn. apply String.eqb_neq in He. by rewrite He. }
  assert (Honce : addReaction messageId u (Some e) db
                  = (Ok (mkResponse 200 (ReactionsUpdated "Reaction updated"
                                           (toggle u e (Message.reactions m)))),
                     mkDb (replaceDoc (Message.set_reactions (toggle u e (Message.reactions m)) m)
                             (messages db)) (users db))).
  { unfold addReaction. rewrite Htruthy, Hor. cbn [negb]. by run_handler Hfind. }
  rewrite Honce. cbn [snd].
  set (m1 := Message.set_reactions (toggle u e (Message.reactions m)) m).
  set (db1 := mkDb (replaceDoc m1 (messages db)) (users db)).
  assert (Hfind1 : Message_findById messageId db1 = (Ok (Some m1), db1)).
  { unfold Message_findById. rewrite Hcast. unfold bind, get, ret, db1.
    cbn [messages]. rewrite lookupMessage_replaceDoc. cbn [m1 Message.set_reactions Message._id].
    by rewrite Hoid, String.eqb_refl, Hlook. }
  split; [done|]. split.
  - unfold addReaction. rewrite Htruthy, Hor. cbn [negb]. run_handler Hfind1.
    unfold db1. cbn [messages users]. by rewrite replaceDoc_replaceDoc.
  - split; [apply toggle_flips|]. split; [apply toggle_others|].
    split; [apply toggle_toggle_elem|apply toggle_toggle_absent].
Qed.

(** ** The two send paths *)

Section SendFacts.

Lemma User_findById_state id d r d' : User_findById id d = (r, d') -> d' = d.
Proof.
  unfold User_findById. destruct id as [raw|]; [|by intros [= _ <-]].
  destruct (castObjectId raw); [|by intros [= _ <-]].
  unfold bind, get, ret. by intros [= _ <-].
Qed.

Lemma User_findById_found r B bu d :
  castObjectId r = Some B -> users d !! B = Some bu ->
  User_findById (Some r) d = (Ok (Some (B, bu)), d).
Proof.
  intros Hc Hu. unfold User_findById, bind, get, ret. by rewrite Hc, Hu.
Qed.

Lemma User_findById_absent r B d :
  castObjectId r = Some B -> users d !! B = None ->
  User_findById (Some r) d = (Ok None, d).
Proof.
  intros Hc Hu. unfold User_findById, bind, get, ret. by rewrite Hc, Hu.
Qed.

Lemma validate_id newId dr m : validate newId dr = Ok m -> Message._id m = newId.
Proof.
  unfold validate. intros H.
  repeat match type of H with
         | match ?x with _ => _ end = _ => destruct x; try discriminate
         | (if ?x then _ else _) = _ => destruct x; try discriminate
         end;
    by injection H as <-.
Qed.

Lemma lookupMessage_snoc id ms m :
  lookupMessage id ms = None -> Message._id m = id ->
  lookupMessage id (ms ++ [m]) = Some m.
Proof.
  unfold lookupMessage. intros Hnone Hid. induction ms as [|x ms IH]; simpl in *.
  - by rewrite Hid, String.eqb_refl.
  - destruct (String.eqb (Message._id x) id); [done|]. by apply IH.
Qed.

(** A save of a new document either throws and stores nothing, or
    appends the validated document under an id that was free. *)
Lemma Message_create_cases newId dr d :
  (exists e, Message_create newId dr d = (Throw e, d))
  \/ (exists m, validate newId dr = Ok m
                /\ lookupMessage newId (messages d) = None
                /\ Message_create newId dr d
                   = (Ok m, mkDb (messages d ++ [m]) (users d))).
Proof.
  unfold Message_create. destruct (validate newId dr) as [m|e] eqn:Hv.
  - unfold bind, get, ret, modify, throw. cbn.
    destruct (lookupMessage newId (messages d)) eqn:Hl; [left|right]; eauto.
  - left. eauto.
Qed.

End SendFacts.

(** C1, as the code has it.  When the block-list of the receiver [B]
    contains the id [A]: on the durable path a send by [A] answers 403
    (Forbidden) and stores nothing, whatever the body, kind, media,
    reply reference and one-time flag; on the live path of index.js a
    payload whose [sender] field is that same string [A] stores nothing
    and routes no [newMessage], whatever its body, kind, media, reply
    reference and one-time flag, and the originating socket gets the
    refusal "Cannot send message to this user" provided [A] and the text
    are non-empty.  Line 98 compares the payload's [sender] with the
    block-list as a string, so the statement is about the payloads that
    spell the sender's id as the block-list holds it and says nothing
    about any other spelling. *)
Theorem blocked_send_is_refused
    (d : Db) (A r B : string) (bu : User.t) :
  castObjectId r = Some B ->
  users d !! B = Some bu ->
  includes (User.blockedUsers bu) A = true ->
  (forall text kind media reply otv newId now,
      sendMessage A (mkSendBody (Some r) text kind media reply otv) newId now d
      = (Ok (mkResponse 403 (Info "You cannot send messages to this user")), d)
      /\ kindOf (mkResponse 403 (Info "You cannot send messages to this user"))
         = Some Forbidden)
  /\ (forall socks hist sid text kind media reply otv newId now,
         let w := mkServer d socks hist in
         let data := MessageData.mk (Some A) (Some r) text kind media reply otv in
         db (snd (index.sendMessage sid data newId now w)) = d
         /\ routed (history (snd (index.sendMessage sid data newId now w))) = routed hist
         /\ (A <> "" -> truthy text = true ->
             index.sendMessage sid data newId now w
             = (Ok tt,
                mkServer d socks
                  (hist ++ [Emitted (ToSocket sid)
                              (messageError "Cannot send message to this user" None)])))).
Proof.
  intros Hcast Huser Hblocked.
  pose proof (User_findById_found _ _ _ _ Hcast Huser) as Hfind.
  split.
  - intros. split; [|done]. unfold sendMessage. cbn [receiver].
    run_handler Hfind. by rewrite Hblocked.
  - intros socks hist sid text kind media reply otv newId now w data.
    assert (Hr : truthy (Some r) = true).
    { cbn. apply negb_true_iff, String.eqb_neq. by eapply castObjectId_nonempty. }
    assert (Hrun : truthy (Some A) = true -> truthy text = true ->
                   index.sendMessage sid data newId now w
                   = (Ok tt,
                      mkServer d socks
                        (hist ++ [Emitted (ToSocket sid)
                                    (messageError "Cannot send message to this user" None)]))).
    { intros HA Ht. unfold index.sendMessage, data. cbn [MessageData.sender
        MessageData.receiver MessageData.text]. rewrite HA, Hr, Ht. cbn [negb orb].
      unfold tryCatch, bind, liftDb, w. cbn [db]. rewrite Hfind. cbn [sockets history].
      assert (Ho : orElse (Some A) "" = A).
      { cbn. cbn in HA. by destruct (String.eqb A ""). }
      by rewrite Ho, Hblocked. }
    assert (Hmiss : truthy (Some A) = false \/ truthy text = false ->
                    index.sendMessage sid data newId now w
                    = (Ok tt,
                       mkServer d socks
                         (hist ++ [Emitted (ToSocket sid)
                                     (messageError "Missing required fields" None)]))).
    { intros Hm. unfold index.sendMessage, data. cbn [MessageData.sender
        MessageData.receiver MessageData.text].
      assert (Hg : negb (truthy (Some A)) || negb (truthy (Some r)) || negb (truthy text) = true).
      { destruct Hm as [-> | ->]; [done|]. cbn [negb]. by rewrite orb_true_r. }
      by rewrite Hg. }
    assert (Hrouted : forall e, routed (hist ++ [Emitted (ToSocket sid) (messageError e None)])
                                = routed hist).
    { intros e. unfold routed. rewrite omap_app. cbn. by rewrite app_nil_r. }
    destruct (truthy (Some A)) eqn:HA, (truthy text) eqn:Ht;
      first [rewrite (Hrun eq_refl eq_refl) | rewrite Hmiss by auto]; cbn [snd db history];
      (split; [done|split; [apply Hrouted|]]); try done.
    intros HAne _. cbn in HA. by apply negb_false_iff, String.eqb_eq in HA.
Qed.

Lemma routedAfterPersist_app saved h1 h2 :
  routedAfterPersist saved (h1 ++ h2)
  = routedAfterPersist saved h1 && routedAfterPersist (savedAfter saved h1) h2.
Proof.
  revert saved. induction h1 as [|e h1 IH]; intros saved; [done|]. simpl.
  destruct e as [id|t ev]; [apply IH|].
  destruct ev as [| [[pm|]|] | |]; rewrite ?IH; try done.
  by rewrite andb_assoc.
Qed.

(** In index.js every [newMessage] that a [sendMessage] event routes is
    preceded, in the history, by the completed save of the document it
    carries, and that document is in the store when the handler ends. *)
Theorem index_sendMessage_persists_before_routing
    (w : Server) (sid : string) (data : MessageData.t) (newId : string) (now : Date) :
  let w' := snd (index.sendMessage sid data newId now w) in
  exists new,
    history w' = (history w ++ new)%list
    /\ routedAfterPersist [] new = true
    /\ (forall p, p ∈ routed new ->
          exists pm, p = Stored (Some pm) /\ Populated.doc pm ∈ messages (db w')).
Proof.
  cbn zeta. unfold index.sendMessage.
  assert (Herr : forall e x (d : Db),
             exists new,
               history (mkServer d (sockets w)
                          (history w ++ [Emitted (ToSocket sid) (messageError e x)]))
               = (history w ++ new)%list
               /\ routedAfterPersist [] new = true
               /\ (forall p, p ∈ routed new ->
                     exists pm, p = Stored (Some pm) /\ Populated.doc pm ∈ messages d)).
  { intros e x d. eexists. split; [reflexivity|]. split; [done|].
    intros p Hp. by apply elem_of_nil in Hp. }
  destruct (negb (truthy (MessageData.sender data))
            || negb (truthy (MessageData.receiver data))
            || negb (truthy (MessageData.text data))).
  { apply Herr. }
  unfold tryCatch, bind, liftDb.
  destruct (User_findById (MessageData.receiver data) (db w)) as [r d'] eqn:Hu.
  apply User_findById_state in Hu as ->.
  destruct r as [receiverUser|e]; [|apply Herr].
  destruct (match receiverUser with
            | Some (_, ru) => includes (User.blockedUsers ru) (orElse (MessageData.sender data) "")
            | None => false
            end).
  { apply Herr. }
  unfold persist, bind, liftDb. cbn [db sockets history].
  match goal with
  | |- context [Message_create newId ?dr (db w)] =>
      destruct (Message_create_cases newId dr (db w)) as [[e He]|(m & Hv & Hfresh & Hc)]
  end.
  { rewrite He. apply Herr. }
  rewrite Hc. cbn. unfold Message_findByIdPopulated, bind, get, ret. cbn.
  apply validate_id in Hv. rewrite Hv.
  rewrite (lookupMessage_snoc _ _ _ Hfresh Hv). cbn.
  eexists. split; [by rewrite <- !app_assoc|]. split.
  - cbn. by rewrite ?Hv, String.eqb_refl.
  - intros p Hp. cbn in Hp. eexists. split.
    + apply elem_of_cons in Hp as [->|Hp]; [done|].
      apply elem_of_cons in Hp as [->|Hp]; [done|]. by apply elem_of_nil in Hp.
    + cbn. apply elem_of_app. right. by left.
Qed.

(** C2, on the relay-only server.  Its [sendMessage] handler routes
    [newMessage] to both rooms and never touches the store: for every
    payload the two events carry the client's payload as received, the
    store is unchanged, and the history fails the persist-then-route
    check. *)
Theorem relay_sendMessage_routes_without_persisting
    (w : Server) (sid : string) (data : MessageData.t) :
  let w' := snd (part_002.sendMessage sid data w) in
  db w' = db w
  /\ history w'
     = (history w ++ [Emitted (ToRoom (MessageData.sender data)) (newMessage (Relayed data));
                      Emitted (ToRoom (MessageData.receiver data)) (newMessage (Relayed data))])%list
  /\ (forall saved, routedAfterPersist saved (history w') = false).
Proof.
  cbn. split; [done|]. split; [by rewrite <- app_assoc|].
  intros saved. rewrite <- app_assoc, routedAfterPersist_app. cbn. apply andb_false_r.
Qed.

(** On the durable path a receiver id that is absent from the request,
    or well-formed and held by no user, answers 404 and stores nothing. *)
Lemma durable_send_unknown_receiver_not_found
    (d : Db) (A : string) (b : SendBody) (newId : string) (now : Date) :
  receiver b = None
  \/ (exists r oid, receiver b = Some r /\ castObjectId r = Some oid /\ users d !! oid = None) ->
  sendMessage A b newId now d = (Ok (mkResponse 404 (Info "Receiver not found")), d)
  /\ kindOf (mkResponse 404 (Info "Receiver not found")) = Some NotFound.
Proof.
  intros H. split; [|done]. unfold sendMessage.
  destruct H as [->|(r & oid & -> & Hc & Hu)].
  - done.
  - by run_handler (User_findById_absent _ _ _ Hc Hu).
Qed.

(** On the live path of index.js the same kind of receiver is let
    through: whenever the payload has its three required fields, the
    receiver id is held by no user and the document passes the schema
    under a free id, the message is stored and routed to both rooms. *)
Lemma live_send_unknown_receiver_persists
    (w : Server) (sid : string) (data : MessageData.t) (newId : string) (now : Date)
    (m : Message.t) :
  truthy (MessageData.sender data) = true ->
  truthy (MessageData.receiver data) = true ->
  truthy (MessageData.text data) = true ->
  User_findById (MessageData.receiver data) (db w) = (Ok None, db w) ->
  validate newId
    (Draft.mk (MessageData.sender data) (MessageData.receiver data) (MessageData.text data)
       (orElse (MessageData.messageType data) "text") (orNull (MessageData.mediaUrl data))
       (orNull (MessageData.replyTo data)) (MessageData.oneTimeView data) now)
  = Ok m ->
  lookupMessage newId (messages (db w)) = None ->
  let d' := mkDb (messages (db w) ++ [m]) (users (db w)) in
  index.sendMessage sid data newId now w
  = (Ok tt,
     mkServer d' (sockets w)
       (history w
          ++ [Persisted newId;
              Emitted (ToRoom (MessageData.sender data))
                (newMessage (Stored (Some (populate d' m))));
              Emitted (ToRoom (MessageData.receiver data))
                (newMessage (Stored (Some (populate d' m))))])).
Proof.
  intros Hs Hr Ht Hfind Hvalid Hfresh. cbn zeta.
  unfold index.sendMessage. rewrite Hs, Hr, Ht. cbn [negb orb].
  unfold tryCatch, bind, liftDb. rewrite Hfind. cbn [db sockets history].
  unfold persist, bind, liftDb, Message_create. cbn [db sockets history].
  rewrite Hvalid. unfold bind, get, modify, ret. cbn [db]. rewrite Hfresh.
  cbn [db sockets history record modify fst snd].
  unfold Message_findByIdPopulated, bind, get, ret, emit, record, modify.
  cbn [db sockets history messages users].
  rewrite (validate_id _ _ _ Hvalid), (lookupMessage_snoc _ _ _ Hfresh (validate_id _ _ _ Hvalid)).
  by rewrite <- !app_assoc.
Qed.

(** C7, on the live path of index.js.  A [sendMessage] event whose
    receiver id is well-formed but held by no user is not refused: the
    message is stored and [newMessage] is routed to both rooms. *)
Theorem live_send_to_unknown_receiver_is_persisted :
  let data := Sample.hi Sample.alice Sample.ghost "hi" in
  let w' := snd (index.sendMessage "s1" data Sample.fresh 3000 Sample.server) in
  let m := Message.mk Sample.fresh Sample.alice Sample.ghost "hi" "text" None
             false None [] None false [] false None 3000 in
  let p := Populated.mk m (Some (mkUserRef Sample.alice "Alice" "alice.png")) None None in
  User_findById (Some Sample.ghost) Sample.store = (Ok None, Sample.store)
  /\ messages (db w') = (messages Sample.store ++ [m])%list
  /\ history w' = [Persisted Sample.fresh;
                   Emitted (ToRoom (Some Sample.alice)) (newMessage (Stored (Some p)));
                   Emitted (ToRoom (Some Sample.ghost)) (newMessage (Stored (Some p)))].
Proof. vm_compute. done. Qed.

(** ** Concrete runs *)

(** C1, the claim as stated fails on the live path: Bob has blocked
    Mallory, and Mallory's [sendMessage] event with an empty body is
    answered "Missing required fields", not the refusal of a blocked
    sender. *)
Lemma blocked_live_send_with_empty_body_is_not_forbidden :
  let data := MessageData.mk (Some Sample.mallory) (Some Sample.bob) (Some "")
                (Some "text") None None false in
  (exists bu, users Sample.store !! Sample.bob = Some bu
              /\ includes (User.blockedUsers bu) Sample.mallory = true)
  /\ index.sendMessage "s1" data Sample.fresh 3000 Sample.server
     = (Ok tt,
        mkServer Sample.store ∅
          [Emitted (ToSocket "s1") (messageError "Missing required fields" None)])
  /\ index.sendMessage "s1" data Sample.fresh 3000 Sample.server
     <> (Ok tt,
         mkServer Sample.store ∅
           [Emitted (ToSocket "s1") (messageError "Cannot send message to this user" None)]).
Proof.
  cbn zeta. split; [|split].
  - eexists. split; reflexivity.
  - reflexivity.
  - intros H. vm_compute in H. discriminate H.
Defined.

Lemma blocked_send_is_refused_witness :
  sendMessage Sample.mallory
    (mkSendBody (Some Sample.bob) (Some "hi") (Some "image") None None false)
    Sample.fresh 3000 Sample.store
  = (Ok (mkResponse 403 (Info "You cannot send messages to this user")), Sample.store)
  /\ index.sendMessage "s1" (Sample.hi Sample.mallory Sample.bob "hi") Sample.fresh 3000
       Sample.server
     = (Ok tt,
        mkServer Sample.store ∅
          [Emitted (ToSocket "s1") (messageError "Cannot send message to this user" None)]).
Proof.
  destruct (blocked_send_is_refused Sample.store Sample.mallory Sample.bob Sample.bob
              (User.mk "Bob" "bob.png" offline None [Sample.mallory])
              eq_refl eq_refl eq_refl) as [Hdurable Hlive].
  split.
  - apply Hdurable.
  - apply (Hlive ∅ [] "s1" (Some "hi") (Some "text") None None false Sample.fresh 3000);
      [discriminate|reflexivity].
Defined.

(** The string comparison of line 98 at work.  Bob has blocked Mallory,
    and the durable path refuses her; a [sendMessage] event that spells
    her id in upper case is not found in the block-list, the schema casts
    the sender to her id, and the message is stored and routed to Bob. *)
Lemma live_send_with_recased_sender_passes_the_block_list :
  let shout := "EEEEEEEEEEEEEEEEEEEEEEEE" in
  let w' := snd (index.sendMessage "s1" (Sample.hi shout Sample.bob "hi") Sample.fresh 3000
                   Sample.server) in
  let m := Message.mk Sample.fresh Sample.mallory Sample.bob "hi" "text" None
             false None [] None false [] false None 3000 in
  let p := Populated.mk m (Some (mkUserRef Sample.mallory "Mallory" "mallory.png"))
             (Some (mkUserRef Sample.bob "Bob" "bob.png")) None in
  castObjectId shout = Some Sample.mallory
  /\ (exists bu, users Sample.store !! Sample.bob = Some bu
                 /\ includes (User.blockedUsers bu) Sample.mallory = true
                 /\ includes (User.blockedUsers bu) shout = false)
  /\ fst (sendMessage Sample.mallory
            (mkSendBody (Some Sample.bob) (Some "hi") (Some "text") None None false)
            Sample.fresh 3000 Sample.store)
     = Ok (mkResponse 403 (Info "You cannot send messages to this user"))
  /\ messages (db w') = (messages Sample.store ++ [m])%list
  /\ history w' = [Persisted Sample.fresh;
                   Emitted (ToRoom (Some shout)) (newMessage (Stored (Some p)));
                   Emitted (ToRoom (Some Sample.bob)) (newMessage (Stored (Some p)))].
Proof.
  cbn zeta. split; [reflexivity|]. split.
  - eexists. split; [reflexivity|]. split; reflexivity.
  - vm_compute. done.
Qed.



(** C4, the claim as stated fails: Bob marks [hello] read at time 100
    and again at time 200; the second call moves [readAt] from 100 to
    200, so the state after two calls is not the state after one. *)
Lemma markRead_second_call_changes_readAt :
  let id := Message._id Sample.hello in
  let once := markMessageRead id Sample.bob 100 100 Sample.store in
  let twice := markMessageRead id Sample.bob 200 200 (snd once) in
  Message.receiver Sample.hello = Sample.bob
  /\ (Message.readAt <$> lookupMessage id (messages (snd once))) = Some (Some 100)
  /\ (Message.readAt <$> lookupMessage id (messages (snd twice))) = Some (Some 200)
  /\ snd twice <> snd once.
Proof.
  cbn zeta. repeat split.
  intros H. vm_compute in H. discriminate H.
Defined.

Lemma markRead_twice_witness :
  exists m1,
    markMessageRead (Message._id Sample.hello) Sample.bob 100 100 Sample.store
    = (Ok (mkResponse 200 (Info "Message marked as read")),
       mkDb (replaceDoc m1 (messages Sample.store)) (users Sample.store))
    /\ Message.readAt m1 = Some 100
    /\ markMessageRead (Message._id Sample.hello) Sample.bob 200 200
         (mkDb (replaceDoc m1 (messages Sample.store)) (users Sample.store))
       = (Ok (mkResponse 200 (Info "Message marked as read")),
          mkDb (replaceDoc (Message.set_read true (Some 200) m1) (messages Sample.store))
               (users Sample.store)).
Proof.
  destruct (markRead_twice_restamps_readAt Sample.store (Message._id Sample.hello)
              Sample.hello Sample.bob 100 100 200 200 eq_refl eq_refl)
    as (m1 & Honce & Htwice & _ & Hat & _).
  exists m1. rewrite Honce in Htwice. cbn [snd] in Htwice. by repeat split.
Defined.

Lemma markRead_not_receiver_witness :
  markMessageRead (Message._id Sample.hello) Sample.alice 100 100 Sample.store
  = (Ok (mkResponse 403 (Info "Not authorized to mark this message as read")), Sample.store).
Proof.
  apply (markRead_not_receiver_forbidden Sample.store (Message._id Sample.hello)
           Sample.hello Sample.alice 100 100); [reflexivity|discriminate].
Defined.

Lemma toggleReaction_twice_witness :
  addReaction (Message._id Sample.hello) Sample.bob (Some "like")
    (snd (addReaction (Message._id Sample.hello) Sample.bob (Some "like") Sample.store))
  = (Ok (mkResponse 200
           (ReactionsUpdated "Reaction updated"
              [mkReaction Sample.alice "heart"; mkReaction Sample.bob "like"])),
     mkDb (replaceDoc
             (Message.set_reactions
                [mkReaction Sample.alice "heart"; mkReaction Sample.bob "like"] Sample.hello)
             (messages Sample.store))
          (users Sample.store)).
Proof.
  destruct (toggleReaction_twice_restores Sample.store (Message._id Sample.hello)
              Sample.hello Sample.bob "like" eq_refl) as (_ & Htwice & _).
  - discriminate.
  - exact Htwice.
Defined.

(** ** Presence *)

Section Presence.

Lemma updateUserStatus_known w raw oid usr st now :
  castObjectId raw = Some oid ->
  users (db w) !! oid = Some usr ->
  index.updateUserStatus (Some raw) st now w
  = (Ok true,
     mkServer
       (mkDb (messages (db w))
          (<[oid := User.mk (User.name usr) (User.avatar usr) st
                      (match st with offline => Some now | _ => User.lastSeen usr end)
                      (User.blockedUsers usr)]> (users (db w))))
       (sockets w) (history w)).
Proof.
  intros Hc Hu. unfold index.updateUserStatus, tryCatch, bind, liftDb,
    index.User_findByIdAndUpdate. rewrite Hc. unfold modify, ret. cbn.
  do 3 f_equal. apply map_eq. intros k. rewrite lookup_alter, lookup_insert.
  destruct (decide (oid = k)) as [<-|]; [|done]. rewrite Hu. cbn. by destruct st.
Qed.

Lemma bind_run {S A B} (c : M S A) (k : A -> M S B) s a s' :
  c s = (Ok a, s') -> bind c k s = k a s'.
Proof. intros H. unfold bind. by rewrite H. Qed.

Lemma join_known w s raw oid usr now :
  castObjectId raw = Some oid ->
  users (db w) !! oid = Some usr ->
  index.join s (Some raw) now w
  = (Ok tt,
     mkServer
       (mkDb (messages (db w))
          (<[oid := User.mk (User.name usr) (User.avatar usr) online (User.lastSeen usr)
                      (User.blockedUsers usr)]> (users (db w))))
       (alter (fun x => mkSocket (Some raw) ({[ raw ]} ∪ rooms x)) s (sockets w))
       (history w ++ [Emitted (Broadcast s) (userStatusUpdate (Some raw) online)])).
Proof.
  intros Hc Hu.
  assert (Ht : truthy (Some raw) = true).
  { cbn. apply negb_true_iff, String.eqb_neq. by eapply castObjectId_nonempty. }
  assert (Ho : orElse (Some raw) "" = raw).
  { cbn. cbn in Ht. by destruct (String.eqb raw ""). }
  unfold index.join. rewrite Ht, Ho.
  erewrite bind_run; [|reflexivity].
  erewrite bind_run; [|by apply updateUserStatus_known].
  reflexivity.
Qed.

Lemma disconnect_joined w s raw rs oid usr now :
  sockets w !! s = Some (mkSocket (Some raw) rs) ->
  castObjectId raw = Some oid ->
  users (db w) !! oid = Some usr ->
  index.disconnect s now w
  = (Ok tt,
     mkServer
       (mkDb (messages (db w))
          (<[oid := User.mk (User.name usr) (User.avatar usr) offline (Some now)
                      (User.blockedUsers usr)]> (users (db w))))
       (delete s (sockets w))
       (history w ++ [Emitted (Broadcast s) (userStatusUpdate (Some raw) offline)])).
Proof.
  intros Hs Hc Hu.
  assert (Ht : truthy (Some raw) = true).
  { cbn. apply negb_true_iff, String.eqb_neq. by eapply castObjectId_nonempty. }
  unfold index.disconnect.
  erewrite bind_run; [|reflexivity]. rewrite Hs. cbn [currentUserId]. rewrite Ht.
  erewrite bind_run; [|reflexivity].
  erewrite bind_run; [|by apply updateUserStatus_known].
  reflexivity.
Qed.

End Presence.

(** C6, as the code has it.  Connections are not counted: with two
    sockets joined as the same existing user, the disconnect of either
    one sets the user's status to offline, stamps [lastSeen] with the
    time of that disconnect and broadcasts the offline status, although
    the other socket is still registered in the user's room; the
    disconnect of the second socket does the same again. *)
Theorem disconnect_of_any_handle_sets_offline
    (w : Server) (U oid : string) (usr : User.t) (s1 s2 : string) (t1 t2 t3 t4 : Date) :
  castObjectId U = Some oid ->
  users (db w) !! oid = Some usr ->
  s1 <> s2 ->
  let stamped st seen :=
    User.mk (User.name usr) (User.avatar usr) st seen (User.blockedUsers usr) in
  let joined :=
    snd ((index.connection s1;;; index.join s1 (Some U) t1;;;
          index.connection s2;;; index.join s2 (Some U) t2) w) in
  let one_left := snd (index.disconnect s1 t3 joined) in
  let none_left := snd (index.disconnect s2 t4 one_left) in
  (sockets joined !! s1 = Some (mkSocket (Some U) ({[ U ]} ∪ {[ s1 ]}))
   /\ sockets joined !! s2 = Some (mkSocket (Some U) ({[ U ]} ∪ {[ s2 ]}))
   /\ users (db joined) !! oid = Some (stamped online (User.lastSeen usr)))
  /\ (sockets one_left !! s2 = Some (mkSocket (Some U) ({[ U ]} ∪ {[ s2 ]}))
      /\ s2 ∈ recipients one_left (ToRoom (Some U))
      /\ users (db one_left) !! oid = Some (stamped offline (Some t3))
      /\ history one_left
         = (history joined ++ [Emitted (Broadcast s1) (userStatusUpdate (Some U) offline)])%list)
  /\ (users (db none_left) !! oid = Some (stamped offline (Some t4))
      /\ history none_left
         = (history one_left ++ [Emitted (Broadcast s2) (userStatusUpdate (Some U) offline)])%list).
Proof.
  intros Hc Hu Hne. cbn zeta.
  set (usr1 := User.mk (User.name usr) (User.avatar usr) online (User.lastSeen usr)
                 (User.blockedUsers usr)).
  assert (Hjoined :
            exists socks,
              (index.connection s1;;; index.join s1 (Some U) t1;;;
               index.connection s2;;; index.join s2 (Some U) t2) w
              = (Ok tt,
                 mkServer (mkDb (messages (db w)) (<[oid := usr1]> (users (db w)))) socks
                   (history w ++ [Emitted (Broadcast s1) (userStatusUpdate (Some U) online);
                                  Emitted (Broadcast s2) (userStatusUpdate (Some U) online)]))
              /\ socks !! s1 = Some (mkSocket (Some U) ({[ U ]} ∪ {[ s1 ]}))
              /\ socks !! s2 = Some (mkSocket (Some U) ({[ U ]} ∪ {[ s2 ]}))).
  { eexists. split.
    - erewrite bind_run; [|reflexivity].
      erewrite bind_run; [|by eapply join_known].
      erewrite bind_run; [|reflexivity].
      erewrite join_known; [|exact Hc|cbn [db users]; apply lookup_insert_eq].
      cbn [db sockets history messages users].
      by rewrite insert_insert_eq, <- app_assoc.
    - split.
      + rewrite lookup_alter_ne, lookup_insert_ne, lookup_alter_eq, lookup_insert_eq by done.
        done.
      + by rewrite lookup_alter_eq, lookup_insert_eq. }
  destruct Hjoined as (socks & -> & Hs1 & Hs2). cbn [snd].
  erewrite disconnect_joined;
    [|exact Hs1|exact Hc|cbn [db users]; apply lookup_insert_eq].
  cbn [snd db sockets history messages users].
  erewrite disconnect_joined;
    [|cbn [sockets]; rewrite lookup_delete_ne by done; exact Hs2
     |exact Hc|cbn [db users]; apply lookup_insert_eq].
  cbn [snd db sockets history messages users]. rewrite !insert_insert_eq.
  repeat split; try done.
  - apply lookup_insert_eq.
  - by rewrite lookup_delete_ne.
  - unfold recipients. cbn [sockets]. apply elem_of_dom. eexists.
    apply map_lookup_filter_Some. split; [by rewrite lookup_delete_ne|].
    cbn. set_solver.
  - apply lookup_insert_eq.
  - apply lookup_insert_eq.
Qed.

(** C6, the claim as stated fails: Alice joins on two sockets and the
    first one disconnects; her status goes from online to offline and the
    offline status is broadcast while the second socket is still
    registered under her id. *)
Lemma second_handle_does_not_keep_user_online :
  let joined :=
    snd ((index.connection "s1";;; index.join "s1" (Some Sample.alice) 10;;;
          index.connection "s2";;; index.join "s2" (Some Sample.alice) 20) Sample.server) in
  let one_left := snd (index.disconnect "s1" 30 joined) in
  (User.status <$> users (db joined) !! Sample.alice) = Some online
  /\ sockets one_left !! "s2" = Some (mkSocket (Some Sample.alice) ({[ Sample.alice ]} ∪ {[ "s2" ]}))
  /\ (User.status <$> users (db one_left) !! Sample.alice) = Some offline
  /\ (User.status <$> users (db one_left) !! Sample.alice) <> Some online
  /\ history one_left
     = [Emitted (Broadcast "s1") (userStatusUpdate (Some Sample.alice) online);
        Emitted (Broadcast "s2") (userStatusUpdate (Some Sample.alice) online);
        Emitted (Broadcast "s1") (userStatusUpdate (Some Sample.alice) offline)].
Proof.
  cbn zeta. repeat split; try (vm_compute; reflexivity).
  intros H. vm_compute in H. discriminate H.
Defined.

Lemma disconnect_of_any_handle_witness :
  let joined :=
    snd ((index.connection "s1";;; index.join "s1" (Some Sample.alice) 10;;;
          index.connection "s2";;; index.join "s2" (Some Sample.alice) 20) Sample.server) in
  let one_left := snd (index.disconnect "s1" 30 joined) in
  users (db one_left) !! Sample.alice = Some (User.mk "Alice" "alice.png" offline (Some 30) [])
  /\ "s2" ∈ recipients one_left (ToRoom (Some Sample.alice)).
Proof.
  destruct (disconnect_of_any_handle_sets_offline Sample.server Sample.alice Sample.alice
              (User.mk "Alice" "alice.png" offline None []) "s1" "s2" 10 20 30 40
              eq_refl eq_refl)
    as (_ & (_ & Hroom & Hstatus & _) & _).
  - discriminate.
  - split; [exact Hstatus|exact Hroom].
Defined.

(** ** getMessages *)

Section Listing.

#[local] Instance byTimestamp_total : Total byTimestamp.
Proof. intros a b. unfold byTimestamp. lia. Qed.

Lemma map_doc_populate d ms : map Populated.doc (map (populate d) ms) = ms.
Proof. rewrite map_map. exact (map_id ms). Qed.

Lemma between_spec cur other m :
  between cur other m = true
  <-> ((Message.sender m = cur /\ Message.receiver m = other)
       \/ (Message.sender m = other /\ Message.receiver m = cur))
      /\ cur ∉ Message.deletedFor m.
Proof.
  unfold between, includes.
  rewrite andb_true_iff, orb_true_iff, !andb_true_iff, !String.eqb_eq, negb_true_iff.
  assert (existsb (String.eqb cur) (Message.deletedFor m) = false
          <-> cur ∉ Message.deletedFor m) as ->; [|done].
  rewrite <- not_true_iff_false, existsb_exists, list_elem_of_In.
  split; intros H Hin; apply H.
  - exists cur. by rewrite String.eqb_refl.
  - destruct Hin as (x & Hx & ->%String.eqb_eq). done.
Qed.

Lemma elem_of_conversation cur other d m :
  m ∈ conversation cur other d <-> m ∈ messages d /\ between cur other m = true.
Proof.
  unfold conversation. rewrite merge_sort_Permutation, list_elem_of_filter. tauto.
Qed.

Lemma Sorted_conversation cur other d : Sorted byTimestamp (conversation cur other d).
Proof. apply Sorted_merge_sort, _. Qed.

Lemma Message_findBetween_run cur other d :
  castObjectId cur = Some cur -> castObjectId other = Some other ->
  Message_findBetween cur other d = (Ok (map (populate d) (conversation cur other d)), d).
Proof. intros Hc Ho. unfold Message_findBetween. by rewrite Hc, Ho. Qed.

(** The filter of line 91 on documents whose senders all populated. *)
Lemma unreadFrom_populated other d ms :
  (forall m, m ∈ ms -> is_Some (users d !! Message.sender m)) ->
  unreadFrom other (map (populate d) ms)
  = Ok (map (populate d)
          (List.filter (fun m => String.eqb (Message.sender m) other
                                 && negb (Message.isRead m)) ms)).
Proof.
  induction ms as [|m ms IH]; intros Hall; [done|]. cbn.
  destruct (Hall m) as [usr Husr]; [by left|].
  unfold populateUser at 1. rewrite Husr.
  rewrite IH by (intros x Hx; apply Hall; by right). cbn.
  by destruct (String.eqb (Message.sender m) other && negb (Message.isRead m)).
Qed.

(** [getMessages] between two existing users: the answer is the listing
    taken before the update, and the store afterwards has every listed
    unread message of the counterpart marked read at [now]. *)
Lemma getMessages_run u c now d :
  castObjectId u = Some u -> castObjectId c = Some c ->
  is_Some (users d !! u) -> is_Some (users d !! c) ->
  getMessages u c now d
  = (Ok (mkResponse 200 (ManyMessages (map (populate d) (conversation u c d)))),
     mkDb (map (fun x => if includes (unreadIds c (conversation u c d)) (Message._id x)
                         then Message.set_read true (Some now) x else x)
               (messages d))
          (users d)).
Proof.
  intros Hu Hc Heu Hec. unfold getMessages, ObjectId_isValid. rewrite Hc. cbn [negb].
  unfold tryCatch. erewrite bind_run; [|by apply Message_findBetween_run].
  rewrite unreadFrom_populated.
  2:{ intros m [_ Hb]%elem_of_conversation. apply between_spec in Hb as [[[-> _]|[-> _]] _]; done. }
  unfold unreadIds.
  set (unread := List.filter _ (conversation u c d)).
  rewrite length_map, map_map. cbn [Populated.doc populate].
  destruct unread as [|x unread'] eqn:E.
  - cbn. f_equal. destruct d as [ms us]. cbn. f_equal.
    symmetry. apply map_id.
  - cbn [length Nat.ltb Nat.leb]. unfold bind, Message_markManyRead, modify, ret. done.
Qed.

End Listing.

Lemma includes_true l x : includes l x = true <-> x ∈ l.
Proof.
  unfold includes. rewrite existsb_exists, list_elem_of_In. split.
  - by intros (y & Hy & ->%String.eqb_eq).
  - intros H. exists x. by rewrite String.eqb_refl.
Qed.

(** With unique ids, what an overwrite leaves of the old collection has
    other ids than the overwritten document. *)
Lemma replaceDoc_elem_unique m' ms x :
  NoDup (map Message._id ms) ->
  x ∈ replaceDoc m' ms ->
  x = m' \/ (x ∈ ms /\ Message._id x <> Message._id m').
Proof.
  induction ms as [|y ms IH]; cbn; [intros _ H; by apply elem_of_nil in H|].
  intros [Hy Hnd]%NoDup_cons.
  destruct (String.eqb (Message._id y) (Message._id m')) eqn:E.
  - apply String.eqb_eq in E.
    intros [->|Hx]%elem_of_cons; [by left|right]. split; [by right|].
    intros Heq. apply Hy. rewrite E, <- Heq. by apply list_elem_of_fmap_2.
  - apply String.eqb_neq in E.
    intros [->|Hx]%elem_of_cons; [right; split; [by left|done]|].
    destruct (IH Hnd Hx) as [->|[Hin Hne]]; [by left|right]. split; [by right|done].
Qed.

(** C8. For two existing users [u] and [c], [getMessages] answers [u]
    with the stored messages exchanged between [u] and [c] (in either
    direction) whose [deletedFor] does not contain [u], exactly those and
    each as often as it is stored, in ascending order of [timestamp].
    Consequently, once [u] has deleted for themselves a message [m] of
    that conversation that [c] still sees, no listing for [u] has a
    message with the id of [m], while the listing for [c] still has [m],
    body unchanged. *)
Theorem listBetween_sorted_and_hides_only_own_deletes
    (d : Db) (u c : string) (now : Date) :
  castObjectId u = Some u -> castObjectId c = Some c ->
  is_Some (users d !! u) -> is_Some (users d !! c) ->
  (exists ps d1,
      getMessages u c now d = (Ok (mkResponse 200 (ManyMessages ps)), d1)
      /\ Sorted byTimestamp (map Populated.doc ps)
      /\ map Populated.doc ps ≡ₚ filter (fun m => between u c m = true) (messages d)
      /\ (forall m,
            m ∈ map Populated.doc ps
            <-> m ∈ messages d
                /\ ((Message.sender m = u /\ Message.receiver m = c)
                    \/ (Message.sender m = c /\ Message.receiver m = u))
                /\ u ∉ Message.deletedFor m))
  /\ (forall (messageId : string) (m : Message.t) (q : option string) (later : Date),
        NoDup (map Message._id (messages d)) ->
        Message_findById messageId d = (Ok (Some m), d) ->
        (Message.sender m = u /\ Message.receiver m = c)
        \/ (Message.sender m = c /\ Message.receiver m = u) ->
        u <> c ->
        c ∉ Message.deletedFor m ->
        q <> Some "true" ->
        let d' := snd (deleteMessage messageId u q d) in
        fst (deleteMessage messageId u q d)
        = Ok (mkResponse 200 (Info "Message deleted successfully"))
        /\ (exists ps du,
              getMessages u c later d' = (Ok (mkResponse 200 (ManyMessages ps)), du)
              /\ forall p, p ∈ ps -> Message._id (Populated.doc p) <> Message._id m)
        /\ (exists ps dc p,
              getMessages c u later d' = (Ok (mkResponse 200 (ManyMessages ps)), dc)
              /\ p ∈ ps
              /\ Populated.doc p
                 = Message.set_deletedFor (Message.deletedFor m ++ [u]) m
              /\ Message.text (Populated.doc p) = Message.text m)).
Proof.
  intros Hu Hc Heu Hec. split.
  - do 2 eexists. split; [by apply getMessages_run|].
    rewrite map_doc_populate. split; [apply Sorted_conversation|].
    split; [apply merge_sort_Permutation|].
    intros m. rewrite elem_of_conversation, between_spec. naive_solver.
  - intros messageId m q later Hnd Hfind Hpart Hne Hvis Hq. cbn zeta.
    destruct (Message_findById_found _ _ _ Hfind) as (oid & Hcast & Hlook & Hoid).
    set (m' := Message.set_deletedFor (Message.deletedFor m ++ [u]) m).
    assert (Hdel : deleteMessage messageId u q d
                   = (Ok (mkResponse 200 (Info "Message deleted successfully")),
                      mkDb (replaceDoc m' (messages d)) (users d))).
    { unfold deleteMessage. run_handler Hfind.
      assert (Hauth : negb (String.eqb (Message.sender m) u)
                      && negb (String.eqb (Message.receiver m) u) = false).
      { destruct Hpart as [[-> _]|[_ ->]]; rewrite String.eqb_refl; cbn;
          [done|apply andb_false_r]. }
      rewrite Hauth. by rewrite bool_decide_eq_false_2. }
    rewrite Hdel. cbn [fst snd]. split; [done|].
    set (d' := mkDb (replaceDoc m' (messages d)) (users d)).
    split.
    + do 2 eexists. split; [by apply getMessages_run|].
      intros p (x & -> & Hx)%list_elem_of_fmap. cbn [Populated.doc populate].
      apply elem_of_conversation in Hx as [Hx Hb].
      apply replaceDoc_elem_unique in Hx as [->|[_ Hx]]; [|done|done].
      apply between_spec in Hb as [_ Hb]. destruct Hb. cbn.
      apply elem_of_app. right. by left.
    + exists (map (populate d') (conversation c u d')). eexists. exists (populate d' m').
      split; [by apply getMessages_run|]. split; [|done].
      apply list_elem_of_fmap_2, elem_of_conversation. split.
      * eapply elem_replaceDoc; [by eapply lookupMessage_elem|done].
      * apply between_spec. cbn. split; [tauto|].
        rewrite elem_of_app, list_elem_of_singleton. intros [?|?]; [done|congruence].
Qed.

(** Between two existing users named by their ids as stored,
    [getMessages] answers with the documents as they were before the
    call and marks afterwards: every unread message from [c] to [u] that
    [u] has not hidden is in the answer unchanged, with [isRead = false]
    and the [readAt] it had, while in the store left by the same call it
    is still there, and every document with its id has [isRead = true]
    and [readAt = now] and is otherwise as it was. *)
Lemma getMessages_snapshot_then_update
    (d : Db) (u c : string) (now : Date) :
  castObjectId u = Some u -> castObjectId c = Some c ->
  is_Some (users d !! u) -> is_Some (users d !! c) ->
  exists ps d',
    getMessages u c now d = (Ok (mkResponse 200 (ManyMessages ps)), d')
    /\ (forall p, p ∈ ps -> Populated.doc p ∈ messages d)
    /\ (forall m,
          m ∈ messages d ->
          Message.sender m = c -> Message.receiver m = u ->
          Message.isRead m = false -> u ∉ Message.deletedFor m ->
          (exists p, p ∈ ps /\ Populated.doc p = m
                     /\ Message.isRead (Populated.doc p) = false
                     /\ Message.readAt (Populated.doc p) = Message.readAt m)
          /\ (exists m', m' ∈ messages d'
                         /\ Message._id m' = Message._id m
                         /\ Message.text m' = Message.text m
                         /\ Message.viewedAt m' = Message.viewedAt m)
          /\ (forall x, x ∈ messages d' -> Message._id x = Message._id m ->
                        Message.isRead x = true /\ Message.readAt x = Some now)).
Proof.
  intros Hu Hc Heu Hec. do 2 eexists. split; [by apply getMessages_run|]. split.
  - intros p (x & -> & Hx)%list_elem_of_fmap. cbn.
    by apply elem_of_conversation in Hx as [Hx _].
  - intros m Hin Hs Hr Hunread Hvis.
    assert (Hconv : m ∈ conversation u c d).
    { apply elem_of_conversation. split; [done|]. apply between_spec. tauto. }
    assert (Hid : includes (unreadIds c (conversation u c d)) (Message._id m) = true).
    { apply includes_true. unfold unreadIds. apply list_elem_of_fmap_2.
      apply list_elem_of_In, filter_In. split; [by apply list_elem_of_In|].
      by rewrite Hs, String.eqb_refl, Hunread. }
    split; [|split].
    + exists (populate d m). split; [by apply list_elem_of_fmap_2|done].
    + exists (Message.set_read true (Some now) m). split; [|done].
      cbn [messages]. apply list_elem_of_fmap. exists m. by rewrite Hid.
    + cbn [messages]. intros x (y & -> & Hy)%list_elem_of_fmap Hx.
      destruct (includes (unreadIds c (conversation u c d)) (Message._id y)) eqn:E.
      * done.
      * rewrite Hx in E. congruence.
Qed.

(** The filter of line 91 selects nothing when no listed document has
    the parameter, as a string, for its sender. *)
Lemma unreadFrom_no_sender other d ms :
  (forall m, m ∈ ms -> Message.sender m <> other) ->
  unreadFrom other (map (populate d) ms) = Ok []
  \/ exists e, unreadFrom other (map (populate d) ms) = Throw e.
Proof.
  induction ms as [|m ms IH]; intros Hall; [by left|]. cbn.
  destruct (populateUser d (Message.sender m)) as [s|] eqn:Hp; [|right; eauto].
  assert (Hrest : forall x, x ∈ ms -> Message.sender x <> other).
  { intros x Hx. apply Hall. by right. }
  destruct (IH Hrest) as [->|[e ->]]; [|right; eauto].
  left. unfold populateUser in Hp.
  destruct (users d !! Message.sender m); [|done]. injection Hp as <-. cbn [ref_id].
  assert (String.eqb (Message.sender m) other = false) as ->; [|done].
  apply String.eqb_neq, Hall. by left.
Qed.

(** Whenever the counterpart's id is spelled otherwise than it is stored
    (upper-case digits, or the twelve-byte form), [getMessages] lists with
    the id cast and marks nothing: the store is left as it was. *)
Lemma getMessages_other_spelling_marks_nothing
    (d : Db) (u c c' : string) (now : Date) :
  castObjectId u = Some u -> castObjectId c = Some c' -> c <> c' ->
  snd (getMessages u c now d) = d.
Proof.
  intros Hu Hc Hne. unfold getMessages, ObjectId_isValid. rewrite Hc. cbn [negb].
  assert (Hfind : Message_findBetween u c d = (Ok (map (populate d) (conversation u c' d)), d)).
  { unfold Message_findBetween. by rewrite Hu, Hc. }
  unfold tryCatch. erewrite bind_run; [|exact Hfind].
  destruct (unreadFrom_no_sender c d (conversation u c' d)) as [->|[e ->]]; [|done|done].
  intros m [_ Hb]%elem_of_conversation.
  apply between_spec in Hb as [[[-> _]|[-> _]] _]; congruence.
Qed.

(** C10, at a counterpart id in upper case.  Bob asks for his
    conversation with Alice, whose unread [hello] is addressed to him,
    and names her by her id in upper-case hexadecimal digits.  The query
    of lines 72-79 casts the id and the answer lists the conversation,
    [hello] unread; the filter of line 91 compares the stored sender's
    id with the parameter as a string, selects nothing, and nothing is
    marked: the store is as it was, [hello] with [isRead = false] and no
    [readAt].  The same request with her id as stored marks it read at
    the time of the call. *)
Theorem getMessages_with_recased_counterpart_marks_nothing :
  let shout := "AAAAAAAAAAAAAAAAAAAAAAAA" in
  castObjectId shout = Some Sample.alice
  /\ Sample.hello ∈ messages Sample.store
  /\ Message.sender Sample.hello = Sample.alice
  /\ Message.receiver Sample.hello = Sample.bob
  /\ Message.isRead Sample.hello = false
  /\ (exists ps d',
        getMessages Sample.bob shout 5000 Sample.store
        = (Ok (mkResponse 200 (ManyMessages ps)), d')
        /\ map Populated.doc ps = [Sample.hello; Sample.secret]
        /\ d' = Sample.store
        /\ forall x, x ∈ messages d' -> Message._id x = Message._id Sample.hello ->
                     Message.isRead x = false /\ Message.readAt x = None)
  /\ (exists ps d',
        getMessages Sample.bob Sample.alice 5000 Sample.store
        = (Ok (mkResponse 200 (ManyMessages ps)), d')
        /\ map Populated.doc ps = [Sample.hello; Sample.secret]
        /\ forall x, x ∈ messages d' -> Message._id x = Message._id Sample.hello ->
                     Message.isRead x = true /\ Message.readAt x = Some 5000).
Proof.
  cbn zeta. split; [reflexivity|]. split; [right; left|]. do 3 (split; [reflexivity|]).
  split.
  - exists (map (populate Sample.store) [Sample.hello; Sample.secret]), Sample.store.
    split; [by vm_compute|]. split; [reflexivity|]. split; [reflexivity|].
    intros x Hx Hid. change (messages Sample.store) with [Sample.secret; Sample.hello] in Hx.
    apply elem_of_cons in Hx as [->|Hx]; [discriminate Hid|].
    apply elem_of_cons in Hx as [->|Hx]; [done|]. by apply elem_of_nil in Hx.
  - exists (map (populate Sample.store) [Sample.hello; Sample.secret]),
      (mkDb [Sample.secret; Message.set_read true (Some 5000) Sample.hello] Sample.users).
    split; [by vm_compute|]. split; [reflexivity|].
    intros x Hx Hid. cbn [messages] in Hx.
    apply elem_of_cons in Hx as [->|Hx]; [discriminate Hid|].
    apply elem_of_cons in Hx as [->|Hx]; [done|]. by apply elem_of_nil in Hx.
Qed.

Lemma listBetween_witness :
  (exists ps d1,
      getMessages Sample.alice Sample.bob 5000 Sample.store
      = (Ok (mkResponse 200 (ManyMessages ps)), d1)
      /\ Sorted byTimestamp (map Populated.doc ps)
      /\ map Populated.doc ps
         ≡ₚ filter (fun m => between Sample.alice Sample.bob m = true) (messages Sample.store))
  /\ (exists ps dc p,
        getMessages Sample.bob Sample.alice 6000
          (snd (deleteMessage (Message._id Sample.hello) Sample.alice None Sample.store))
        = (Ok (mkResponse 200 (ManyMessages ps)), dc)
        /\ p ∈ ps
        /\ Message._id (Populated.doc p) = Message._id Sample.hello
        /\ Message.text (Populated.doc p) = "hello").
Proof.
  destruct (listBetween_sorted_and_hides_only_own_deletes Sample.store Sample.alice Sample.bob
              5000 eq_refl eq_refl) as [Hview Hdelete].
  - eexists. reflexivity.
  - eexists. reflexivity.
  - split.
    + destruct Hview as (ps & d1 & Hrun & Hsorted & Hperm & _). by exists ps, d1.
    + destruct (Hdelete (Message._id Sample.hello) Sample.hello None 6000)
        as (_ & _ & (ps & dc & p & Hrun & Hin & Hdoc & Htext)).
      * apply (bool_decide_unpack _). vm_compute. exact I.
      * reflexivity.
      * left. split; reflexivity.
      * discriminate.
      * apply not_elem_of_nil.
      * discriminate.
      * exists ps, dc, p. rewrite Hdoc in *. by repeat split.
Defined.

Lemma getMessages_snapshot_then_update_witness :
  exists ps d',
    getMessages Sample.bob Sample.alice 5000 Sample.store
    = (Ok (mkResponse 200 (ManyMessages ps)), d')
    /\ (exists p, p ∈ ps /\ Populated.doc p = Sample.hello
                  /\ Message.isRead (Populated.doc p) = false
                  /\ Message.readAt (Populated.doc p) = None)
    /\ (forall x, x ∈ messages d' -> Message._id x = Message._id Sample.hello ->
                  Message.isRead x = true /\ Message.readAt x = Some 5000).
Proof.
  destruct (getMessages_snapshot_then_update Sample.store Sample.bob
              Sample.alice 5000 eq_refl eq_refl) as (ps & d' & Hrun & _ & Hunread).
  - eexists. reflexivity.
  - eexists. reflexivity.
  - destruct (Hunread Sample.hello) as (Hshown & _ & Hstored).
    + right. left.
    + reflexivity.
    + reflexivity.
    + reflexivity.
    + apply not_elem_of_nil.
    + exists ps, d'. split; [exact Hrun|]. split; [exact Hshown|exact Hstored].
Defined.

Lemma getMessages_other_spelling_witness :
  snd (getMessages Sample.bob "AAAAAAAAAAAAAAAAAAAAAAAA" 5000 Sample.store) = Sample.store.
Proof.
  apply (getMessages_other_spelling_marks_nothing Sample.store Sample.bob
           "AAAAAAAAAAAAAAAAAAAAAAAA" Sample.alice 5000); [reflexivity|reflexivity|discriminate].
Defined.

(** ** The store keeps its ids unique *)

Section UniqueIds.

Lemma ids_replaceDoc m' ms : map Message._id (replaceDoc m' ms) = map Message._id ms.
Proof.
  induction ms as [|x ms IH]; [done|]. cbn.
  destruct (String.eqb (Message._id x) (Message._id m')) eqn:E; cbn.
  - apply String.eqb_eq in E. by rewrite E.
  - by rewrite IH.
Qed.

Lemma lookupMessage_None id ms : lookupMessage id ms = None -> id ∉ map Message._id ms.
Proof.
  unfold lookupMessage. intros Hnone (x & -> & Hx)%list_elem_of_fmap.
  apply list_elem_of_In in Hx. apply (find_none _ _ Hnone) in Hx.
  by rewrite String.eqb_refl in Hx.
Qed.

Lemma Message_create_ids newId dr d r d' :
  Message_create newId dr d = (r, d') ->
  ids d' = ids d \/ (ids d' = (ids d ++ [newId])%list /\ newId ∉ ids d).
Proof.
  destruct (Message_create_cases newId dr d) as [[e He]|(m & Hv & Hfresh & Hc)].
  - rewrite He. intros [= _ <-]. by left.
  - rewrite Hc. intros [= _ <-]. right. unfold ids. cbn. rewrite map_app. cbn.
    rewrite (validate_id _ _ _ Hv). split; [done|]. by apply lookupMessage_None.
Qed.

Lemma NoDup_snoc_fresh (l : list string) x : NoDup l -> x ∉ l -> NoDup (l ++ [x]).
Proof.
  intros Hl Hx. apply NoDup_app. split; [done|]. split; [|apply NoDup_singleton].
  intros y Hy ->%list_elem_of_singleton. done.
Qed.

Lemma sendMessage_ids A b newId now d :
  ids (snd (sendMessage A b newId now d)) = ids d
  \/ (ids (snd (sendMessage A b newId now d)) = (ids d ++ [newId])%list /\ newId ∉ ids d).
Proof.
  destruct (sendMessage A b newId now d) as [res d'] eqn:Hrun. cbn [snd].
  revert Hrun. unfold sendMessage, tryCatch. unfold bind at 1.
  destruct (User_findById (receiver b) d) as [r d0] eqn:Hu.
  apply User_findById_state in Hu as ->.
  destruct r as [[[oid ru]|]|e]; [|by intros [= _ <-]; left|by intros [= _ <-]; left].
  destruct (includes (User.blockedUsers ru) A); [by intros [= _ <-]; left|].
  unfold bind at 1.
  match goal with
  | |- context [Message_create newId ?dr d] =>
      destruct (Message_create newId dr d) as [r d1] eqn:Hc
  end.
  apply Message_create_ids in Hc. by destruct r; intros [= _ <-].
Qed.

Lemma getMessages_ids u c now d : ids (snd (getMessages u c now d)) = ids d.
Proof.
  unfold getMessages, tryCatch. destruct (negb (ObjectId_isValid c)); [done|].
  unfold bind at 1. unfold Message_findBetween.
  destruct (castObjectId u); [|done]. destruct (castObjectId c); [|done].
  unfold bind at 1. cbn [get ret].
  destruct (unreadFrom c _) as [unread|e]; [|done].
  destruct (Nat.ltb 0 (length unread)); [|done].
  unfold ids. cbn. rewrite map_map. apply map_ext. intros x.
  by destruct (includes _ _).
Qed.

Lemma markMessageRead_ids messageId u t v d :
  ids (snd (markMessageRead messageId u t v d)) = ids d.
Proof.
  unfold markMessageRead, tryCatch. unfold bind at 1.
  destruct (Message_findById messageId d) as [r d0] eqn:Hf.
  apply Message_findById_state in Hf as ->.
  destruct r as [[m|]|e]; [|done|done].
  destruct (negb (String.eqb (Message.receiver m) u)); [done|].
  unfold ids. cbn. apply ids_replaceDoc.
Qed.

Lemma deleteMessage_ids messageId u q d :
  ids (snd (deleteMessage messageId u q d)) = ids d.
Proof.
  unfold deleteMessage, tryCatch. unfold bind at 1.
  destruct (Message_findById messageId d) as [r d0] eqn:Hf.
  apply Message_findById_state in Hf as ->.
  destruct r as [[m|]|e]; [|done|done].
  destruct (negb (String.eqb (Message.sender m) u)
            && negb (String.eqb (Message.receiver m) u)); [done|].
  unfold ids.
  destruct (bool_decide (q = Some "true") && String.eqb (Message.sender m) u);
    cbn; apply ids_replaceDoc.
Qed.

Lemma addReaction_ids messageId u e d :
  ids (snd (addReaction messageId u e d)) = ids d.
Proof.
  unfold addReaction, tryCatch. destruct (negb (truthy e)); [done|].
  unfold bind at 1.
  destruct (Message_findById messageId d) as [r d0] eqn:Hf.
  apply Message_findById_state in Hf as ->.
  destruct r as [[m|]|err]; [|done|done].
  unfold ids. cbn. apply ids_replaceDoc.
Qed.

(** No request to the message controller breaks the uniqueness of
    message ids. *)
Theorem controller_keeps_ids_unique (d : Db) :
  NoDup (ids d) ->
  (forall A b newId now, NoDup (ids (snd (sendMessage A b newId now d))))
  /\ (forall u c now, NoDup (ids (snd (getMessages u c now d))))
  /\ (forall messageId u t v, NoDup (ids (snd (markMessageRead messageId u t v d))))
  /\ (forall messageId u q, NoDup (ids (snd (deleteMessage messageId u q d))))
  /\ (forall messageId u e, NoDup (ids (snd (addReaction messageId u e d)))).
Proof.
  intros Hnd. repeat split; intros.
  - destruct (sendMessage_ids A b newId now d) as [->|[-> Hfresh]]; [done|].
    by apply NoDup_snoc_fresh.
  - by rewrite getMessages_ids.
  - by rewrite markMessageRead_ids.
  - by rewrite deleteMessage_ids.
  - by rewrite addReaction_ids.
Qed.

End UniqueIds.

(** ** Unread messages carry no read time *)

Section ReadStamp.

Lemma validate_unstamped newId dr m : validate newId dr = Ok m -> unstamped m.
Proof.
  unfold validate. intros H.
  repeat match type of H with
         | match ?x with _ => _ end = _ => destruct x; try discriminate
         | (if ?x then _ else _) = _ => destruct x; try discriminate
         end;
    by injection H as <-.
Qed.

Lemma Forall_replaceDoc (P : Message.t -> Prop) m' ms :
  P m' -> Forall P ms -> Forall P (replaceDoc m' ms).
Proof.
  intros Hm'. induction 1 as [|x ms Hx Hms IH]; cbn; [done|].
  destruct (String.eqb (Message._id x) (Message._id m')); by constructor.
Qed.

Lemma Message_findById_elem raw d m :
  Message_findById raw d = (Ok (Some m), d) -> m ∈ messages d.
Proof.
  intros (oid & _ & Hl & _)%Message_findById_found. by eapply lookupMessage_elem.
Qed.

(** No request to the message controller leaves an unread message with a
    read time. *)
Theorem controller_keeps_unread_unstamped (d : Db) :
  Forall unstamped (messages d) ->
  (forall A b newId now, Forall unstamped (messages (snd (sendMessage A b newId now d))))
  /\ (forall u c now, Forall unstamped (messages (snd (getMessages u c now d))))
  /\ (forall messageId u t v,
         Forall unstamped (messages (snd (markMessageRead messageId u t v d))))
  /\ (forall messageId u q, Forall unstamped (messages (snd (deleteMessage messageId u q d))))
  /\ (forall messageId u e, Forall unstamped (messages (snd (addReaction messageId u e d)))).
Proof.
  intros Hd. repeat split; intros.
  - unfold sendMessage, tryCatch. unfold bind at 1.
    destruct (User_findById (receiver b) d) as [r d0] eqn:Hu.
    apply User_findById_state in Hu as ->.
    destruct r as [[[oid ru]|]|e]; [|done|done].
    destruct (includes (User.blockedUsers ru) A); [done|].
    unfold bind at 1.
    match goal with
    | |- context [Message_create newId ?dr d] =>
        destruct (Message_create_cases newId dr d) as [[e He]|(m & Hv & _ & Hc)]
    end.
    + by rewrite He.
    + rewrite Hc. cbn. apply Forall_app. split; [done|].
      constructor; [by eapply validate_unstamped|constructor].
  - unfold getMessages, tryCatch. destruct (negb (ObjectId_isValid c)); [done|].
    unfold bind at 1. unfold Message_findBetween.
    destruct (castObjectId u); [|done]. destruct (castObjectId c); [|done].
    unfold bind at 1. cbn [get ret].
    destruct (unreadFrom c _) as [unread|e]; [|done].
    destruct (Nat.ltb 0 (length unread)); [|done].
    cbn. apply Forall_fmap. eapply Forall_impl; [exact Hd|].
    intros x Hx. cbn. by destruct (includes _ _).
  - unfold markMessageRead, tryCatch. unfold bind at 1.
    destruct (Message_findById messageId d) as [r d0] eqn:Hf.
    pose proof (Message_findById_state _ _ _ _ Hf) as ->.
    destruct r as [[m|]|e]; [|done|done].
    destruct (negb (String.eqb (Message.receiver m) u)); [done|].
    cbn. apply Forall_replaceDoc; [|done].
    by destruct (Message.oneTimeView m && _).
  - unfold deleteMessage, tryCatch. unfold bind at 1.
    destruct (Message_findById messageId d) as [r d0] eqn:Hf.
    pose proof (Message_findById_state _ _ _ _ Hf) as ->.
    destruct r as [[m|]|e]; [|done|done].
    apply Message_findById_elem in Hf.
    pose proof (proj1 (Forall_forall _ _) Hd m Hf) as Hm.
    destruct (negb (String.eqb (Message.sender m) u)
              && negb (String.eqb (Message.receiver m) u)); [done|].
    destruct (bool_decide (q = Some "true") && String.eqb (Message.sender m) u);
      cbn; by apply Forall_replaceDoc.
  - unfold addReaction, tryCatch. destruct (negb (truthy e)); [done|].
    unfold bind at 1.
    destruct (Message_findById messageId d) as [r d0] eqn:Hf.
    pose proof (Message_findById_state _ _ _ _ Hf) as ->.
    destruct r as [[m|]|err]; [|done|done].
    apply Message_findById_elem in Hf.
    pose proof (proj1 (Forall_forall _ _) Hd m Hf) as Hm.
    cbn. by apply Forall_replaceDoc.
Qed.

End ReadStamp.
